(** * The clothing storefront backend: signup/login, cart and checkout

    A shallow embedding of [main.py] and [schemas.py].  Request handlers are
    computations over an explicit world (the document store plus the counters
    of the clock, the identifier generator and the salt generator); Python
    floats are the kernel's binary64 floats; a raised exception leaves the
    world as it was at the [raise], as in Python.

    Taken as given, outside the sources: the store handle [db] is the
    pymongo [Database] of a connected store; a stored document has the
    fields of the schema it was written under; a collection keeps its
    documents in insertion order; the size of a document is not bounded. *)

From Stdlib Require Import ZArith NArith List String Ascii Bool Floats Lia.
From Stdlib Require Import DecimalString.
Import ListNotations.

Local Open Scope string_scope.
Local Open Scope list_scope.
Local Open Scope Z_scope.

(* ===================================================================== *)
(** ** Python numbers *)
(* ===================================================================== *)

Module Py.

(** Nearest integer to [num / den] ([den > 0]), ties to the even one: the
    rounding of [round] on floats, which goes through the correctly rounded
    decimal expansion of the exact binary value. *)
Definition round_half_even (num den : Z) : Z :=
  let q := num / den in
  let r := num mod den in
  match 2 * r ?= den with
  | Lt => q
  | Gt => q + 1
  | Eq => if Z.even q then q else q + 1
  end.

(** The number of hundredths nearest to [m * 2^e]. *)
Definition hundredths (m : positive) (e : Z) : Z :=
  if 0 <=? e then Z.pos m * 2 ^ e * 100
  else round_half_even (Z.pos m * 100) (2 ^ (- e)).

(** The binary64 float nearest to [num / den] ([num], [den] positive). *)
Definition div_nearest (s : bool) (num den : positive) : float :=
  SF2Prim (SFdiv prec emax (S754_finite s num 0) (S754_finite false den 0)).

(** [round(x, 2)]: the float nearest to the decimal with two digits that is
    nearest to [x]; zeros, infinities and NaN round to themselves. *)
Definition round2 (x : float) : float :=
  match Prim2SF x with
  | S754_finite s m e =>
      match hundredths m e with
      | Z.pos n => div_nearest s n 100
      | _ => SF2Prim (S754_zero s)
      end
  | _ => x
  end.

(** The float nearest to an integer (ties to even); infinite when the
    integer is beyond the range of binary64. *)
Definition nearest_float (z : Z) : float :=
  SF2Prim (binary_normalize prec emax z 0 false).

(** The least integer that rounds beyond the largest float: half-way
    between it and [2^1024]. *)
Definition float_limit : Z := 2 ^ 1024 - 2 ^ 970.

(** [float(z)], as in [price * qty] with an int operand; [None] stands for
    [OverflowError: int too large to convert to float], raised when the
    rounded value would not be finite. *)
Definition float_of_int (z : Z) : option float :=
  if Z.abs z <? float_limit then Some (nearest_float z) else None.

(** [int(x)] for a finite float: truncation toward zero. *)
Definition int_of_float (x : float) : Z :=
  match Prim2SF x with
  | S754_finite s m e =>
      let a := if 0 <=? e then Z.pos m * 2 ^ e else Z.pos m / 2 ^ (- e) in
      if s then - a else a
  | _ => 0
  end.

(** [str(z)] for an int. *)
Definition str_of_int (z : Z) : string :=
  NilZero.string_of_int (Z.to_int z).

(** [sum] of floats accumulated left to right from [0.0], as [total += x]
    does in a loop. *)
Definition fsum (xs : list float) : float :=
  fold_left (fun acc x => (acc + x)%float) xs 0%float.

End Py.

(** A [datetime]: microseconds since the epoch, UTC. *)
Definition datetime := Z.

(** [datetime.timestamp()]: seconds since the epoch as a float, the true
    division of the microseconds by [10**6]. *)
Definition timestamp (t : datetime) : float :=
  match t with
  | Z0 => 0%float
  | Z.pos p => Py.div_nearest false p 1000000
  | Z.neg p => Py.div_nearest true p 1000000
  end.

(* ===================================================================== *)
(** ** bson.ObjectId *)
(* ===================================================================== *)

Module ObjectId.

(** An identifier is kept as its [str()]: 24 lower-case hexadecimal digits
    (the 12 bytes in hexadecimal). *)
Definition t := string.

Definition is_hex (c : ascii) : bool :=
  let n := N_of_ascii c in
  ((48 <=? n) && (n <=? 57) || (97 <=? n) && (n <=? 102)
   || (65 <=? n) && (n <=? 70))%N.

Definition lower (c : ascii) : ascii :=
  let n := N_of_ascii c in
  if ((65 <=? n) && (n <=? 90))%N then ascii_of_N (n + 32) else c.

Fixpoint all_hex (s : string) : bool :=
  match s with
  | EmptyString => true
  | String c s' => is_hex c && all_hex s'
  end.

Fixpoint lowercase (s : string) : string :=
  match s with
  | EmptyString => EmptyString
  | String c s' => String (lower c) (lowercase s')
  end.

(** ASCII whitespace, which [bytes.fromhex] skips between bytes. *)
Definition is_space (c : ascii) : bool :=
  let n := N_of_ascii c in
  ((n =? 32) || (9 <=? n) && (n <=? 13))%N.

(** [bytes.fromhex(s)], the bytes given back in lower-case hexadecimal:
    whitespace is skipped before each byte, and a byte is two hexadecimal
    digits side by side; [None] stands for [ValueError]. *)
Fixpoint fromhex (s : string) : option string :=
  match s with
  | EmptyString => Some EmptyString
  | String c s' =>
      if is_space c then fromhex s'
      else if is_hex c then
        match s' with
        | String c' s'' =>
            if is_hex c'
            then match fromhex s'' with
                 | Some bytes => Some (String (lower c) (String (lower c') bytes))
                 | None => None
                 end
            else None
        | EmptyString => None
        end
      else None
  end.

(** [ObjectId.is_valid(s)] for a string: 24 characters that
    [bytes.fromhex] accepts (24 hexadecimal digits, or fewer with
    whitespace around the bytes). *)
Definition is_valid (s : string) : bool :=
  (String.length s =? 24)%nat
  && match fromhex s with Some _ => true | None => false end.

(** [ObjectId(s)] for a valid [s]: the bytes [bytes.fromhex] reads; upper
    and lower case digits denote the same bytes. *)
Definition of_str (s : string) : t :=
  match fromhex s with
  | Some bytes => bytes
  | None => lowercase s
  end.

(** [str(oid)]. *)
Definition str (o : t) : string := o.

Definition eqb (a b : t) : bool := String.eqb a b.

End ObjectId.

(** What a BSON document can hold as an integer: at most 8 bytes.  pymongo
    raises [OverflowError] when asked to encode any other int. *)
Definition bson_int (z : Z) : bool :=
  (- 2 ^ 63 <=? z) && (z <=? 2 ^ 63 - 1).

(** A datetime as a BSON document keeps it: whole milliseconds, the
    microseconds below dropped. *)
Definition bson_datetime (t : datetime) : datetime := t / 1000 * 1000.

(* ===================================================================== *)
(** ** schemas.py *)
(* ===================================================================== *)

Module User.
Record t := mk {
  name : string;
  email : string;
  password_hash : string;
  address : option string;
  is_active : bool
}.
End User.

Module ProductImage.
Record t := mk { url : string; alt : option string }.
End ProductImage.

Module ProductVariant.
Record t := mk { size : option string; color : option string; stock : Z }.
End ProductVariant.

Module Product.
Record t := mk {
  title : string;
  description : option string;
  price : float;
  category : string;
  images : list ProductImage.t;
  variants : list ProductVariant.t;
  in_stock : bool
}.

(** [price: float = Field(..., ge=0)]. *)
Definition validate (p : t) : bool := (0 <=? price p)%float.
End Product.

Module CartItem.
Record t := mk {
  product_id : string;
  quantity : Z;
  size : option string;
  color : option string
}.

(** [quantity: int = Field(1, ge=1)]. *)
Definition validate (it : t) : bool := 1 <=? quantity it.

Definition encodable (it : t) : bool := bson_int (quantity it).
End CartItem.

Module Cart.
Record t := mk { user_id : string; items : list CartItem.t }.
End Cart.

Module OrderItem.
Record t := mk {
  product_id : string;
  title : string;
  unit_price : float;
  quantity : Z;
  size : option string;
  color : option string
}.

Definition encodable (it : t) : bool := bson_int (quantity it).
End OrderItem.

(* ===================================================================== *)
(** ** Stored documents *)
(* ===================================================================== *)

Module UserDoc.
Record t := mk { _id : ObjectId.t; fields : User.t }.
End UserDoc.

Module ProductDoc.
Record t := mk { _id : ObjectId.t; fields : Product.t }.
End ProductDoc.

Module CartDoc.
Record t := mk {
  _id : ObjectId.t;
  user_id : string;
  items : list CartItem.t;
  updated_at : option datetime
}.

(** [{"$set": {"items": its, "updated_at": now}}], as stored. *)
Definition set_items (its : list CartItem.t) (now : datetime) (c : t) : t :=
  mk (_id c) (user_id c) its (Some (bson_datetime now)).
End CartDoc.

Module OrderDoc.
Record t := mk {
  _id : ObjectId.t;
  user_id : string;
  items : list OrderItem.t;
  total : float;
  status : string;
  shipping_address : option string;
  created_at : datetime;
  updated_at : datetime
}.

(** The order document as the store keeps it. *)
Definition stored (o : t) : t :=
  mk (_id o) (user_id o) (items o) (total o) (status o) (shipping_address o)
     (bson_datetime (created_at o)) (bson_datetime (updated_at o)).
End OrderDoc.

(* ===================================================================== *)
(** ** The world: the document store and what the runtime hands out *)
(* ===================================================================== *)

(** The four collections, each in natural (insertion) order. *)
Record Database := mkDatabase {
  user : list UserDoc.t;
  product : list ProductDoc.t;
  cart : list CartDoc.t;
  order : list OrderDoc.t
}.

(** The store, and how many times the clock was read, an [ObjectId] was
    generated and a salt was drawn. *)
Record World := mkWorld {
  db : Database;
  clock_reads : nat;
  oids_made : nat;
  salts_drawn : nat
}.

(** What lies outside the program: the successive readings of the clock, the
    successive identifiers the driver generates, and passlib's [CryptContext]:
    [hash] with the salt drawn and [verify], each [None] where passlib raises
    (a password with a NUL byte or too long, a hash of no known scheme). *)
Class Runtime := {
  utc_clock : nat -> datetime;
  generated_oid : nat -> ObjectId.t;
  pwd_context_hash : nat -> string -> option string;
  pwd_context_verify : string -> string -> option bool
}.

Inductive Exception :=
| HTTPException (status_code : Z) (detail : string)
| RequestValidationError   (* FastAPI: the body does not fit the schema *)
| ValidationError          (* pydantic: a model's field constraint fails *)
| OverflowError            (* an int too large for BSON or for a float *)
| NotImplementedError      (* pymongo: the truth value of a Database *)
| ValueError.              (* passlib: a password or a hash it refuses *)

Inductive Result (A : Type) :=
| Ok (a : A)
| Raise (e : Exception).
Arguments Ok {A} a.
Arguments Raise {A} e.

(** A handler's computation: a result or an exception, and the world left
    behind in either case. *)
Definition M (A : Type) : Type := World -> Result A * World.

Definition ret {A} (a : A) : M A := fun w => (Ok a, w).

Definition bind {A B} (m : M A) (k : A -> M B) : M B :=
  fun w =>
    match m w with
    | (Ok a, w') => k a w'
    | (Raise e, w') => (Raise e, w')
    end.

Definition raise {A} (e : Exception) : M A := fun w => (Raise e, w).

Declare Scope handler_scope.
Delimit Scope handler_scope with handler.
Notation "x <- m ;; k" := (bind m (fun x => k))
  (at level 100, m at next level, right associativity) : handler_scope.
Notation "' p <- m ;; k" := (bind m (fun x => let p := x in k))
  (at level 100, p pattern, m at next level, right associativity) : handler_scope.
Notation "m ;;; k" := (bind m (fun _ => k))
  (at level 100, right associativity) : handler_scope.
Local Open Scope handler_scope.

Definition modify_db (f : Database -> Database) : M unit :=
  fun w => (Ok tt, mkWorld (f (db w)) (clock_reads w) (oids_made w) (salts_drawn w)).

(** [for x in l: s = body(x, s)]. *)
Fixpoint for_each {A S} (l : list A) (body : A -> S -> M S) (s : S) : M S :=
  match l with
  | [] => ret s
  | a :: l' => s' <- body a s ;; for_each l' body s'
  end.

(** *** pymongo collections *)

(** [db[name]]: where a collection's documents live in the store. *)
Record Collection (D : Type) := mkCollection {
  docs : Database -> list D;
  set_docs : list D -> Database -> Database
}.
Arguments docs {D} c d.
Arguments set_docs {D} c l d.

Definition user_c : Collection UserDoc.t :=
  mkCollection _ user (fun l d => mkDatabase l (product d) (cart d) (order d)).
Definition product_c : Collection ProductDoc.t :=
  mkCollection _ product (fun l d => mkDatabase (user d) l (cart d) (order d)).
Definition cart_c : Collection CartDoc.t :=
  mkCollection _ cart (fun l d => mkDatabase (user d) (product d) l (order d)).
Definition order_c : Collection OrderDoc.t :=
  mkCollection _ order (fun l d => mkDatabase (user d) (product d) (cart d) l).

(** Replaces the first document that matches. *)
Fixpoint update_first {D} (filter : D -> bool) (set : D -> D) (l : list D) : list D :=
  match l with
  | [] => []
  | d :: l' => if filter d then set d :: l' else d :: update_first filter set l'
  end.

Section Handlers.
Context {rt : Runtime}.

(** [datetime.now(timezone.utc)]. *)
Definition utc_now : M datetime :=
  fun w => (Ok (utc_clock (clock_reads w)),
            mkWorld (db w) (S (clock_reads w)) (oids_made w) (salts_drawn w)).

(** [ObjectId()]. *)
Definition new_ObjectId : M ObjectId.t :=
  fun w => (Ok (generated_oid (oids_made w)),
            mkWorld (db w) (clock_reads w) (S (oids_made w)) (salts_drawn w)).

(** [collection.find_one(filter)]: the first match in natural order. *)
Definition find_one {D} (c : Collection D) (filter : D -> bool) : M (option D) :=
  fun w => (Ok (find filter (docs c (db w))), w).

(** [collection.insert_one(doc)]: the driver gives the document a fresh
    [_id], encodes it ([OverflowError] on an int outside BSON's range) and
    the store appends it. *)
Definition insert_one {D} (c : Collection D) (encodable : D -> bool)
    (doc : ObjectId.t -> D) : M ObjectId.t :=
  oid <- new_ObjectId ;;
  if encodable (doc oid)
  then modify_db (fun d => set_docs c (docs c d ++ [doc oid]) d) ;;; ret oid
  else raise OverflowError.

(** [collection.update_one(filter, {"$set": ...})]: the update document is
    encoded, then the first match is changed (nothing when none matches). *)
Definition update_one {D} (c : Collection D) (filter : D -> bool)
    (encodable : bool) (set : D -> D) : M unit :=
  if encodable
  then modify_db (fun d => set_docs c (update_first filter set (docs c d)) d)
  else raise OverflowError.

(** *** database.py *)

(** Modelled from the spec: [create_document] of database.py, which is not
    among the sources.  "insert(collectionName, document) -> id assigns a
    store-generated unique identifier and returns it as a string". *)
Definition create_document {D} (c : Collection D) (encodable : D -> bool)
    (doc : ObjectId.t -> D) : M string :=
  oid <- insert_one c encodable doc ;;
  ret (ObjectId.str oid).

(** Modelled from the spec: [get_documents] of database.py, which is not
    among the sources.  "find(collectionName, filter, limit?) ->
    sequence<document>", here with no filter. *)
Definition get_documents {D} (c : Collection D) (limit : nat) : M (list D) :=
  fun w => (Ok (firstn limit (docs c (db w))), w).

End Handlers.

(* ===================================================================== *)
(** ** main.py *)
(* ===================================================================== *)

Module SignupRequest.
Record t := mk { name : string; email : string; password : string }.
End SignupRequest.

Module LoginRequest.
Record t := mk { email : string; password : string }.
End LoginRequest.

Module AuthResponse.
Record t := mk { user_id : string; name : string; email : string; token : string }.
End AuthResponse.

Module AddToCartRequest.
Record t := mk {
  product_id : string;
  quantity : Z;
  size : option string;
  color : option string
}.

(** [payload.model_dump()]: the dict of the four fields, with no constraint
    on [quantity]. *)
Definition model_dump (p : t) : CartItem.t :=
  CartItem.mk (product_id p) (quantity p) (size p) (color p).
End AddToCartRequest.

Module CartResponse.
Record t := mk { cart_id : string; items : list CartItem.t }.
End CartResponse.

Module CheckoutRequest.
Record t := mk { user_id : string; shipping_address : option string }.
End CheckoutRequest.

Module CheckoutResponse.
Record t := mk { order_id : string; total : float; status : string }.
End CheckoutResponse.

Definition email_is (e : string) (u : UserDoc.t) : bool :=
  String.eqb (User.email (UserDoc.fields u)) e.

Definition cart_of (user_id : string) (c : CartDoc.t) : bool :=
  String.eqb (CartDoc.user_id c) user_id.

Definition cart_id_is (oid : ObjectId.t) (c : CartDoc.t) : bool :=
  ObjectId.eqb (CartDoc._id c) oid.

Definition product_id_is (oid : ObjectId.t) (p : ProductDoc.t) : bool :=
  ObjectId.eqb (ProductDoc._id p) oid.

Definition product_encodable (p : ProductDoc.t) : bool :=
  forallb (fun v => bson_int (ProductVariant.stock v))
          (Product.variants (ProductDoc.fields p)).

Definition cart_encodable (c : CartDoc.t) : bool :=
  forallb CartItem.encodable (CartDoc.items c).

Definition order_encodable (o : OrderDoc.t) : bool :=
  forallb OrderItem.encodable (OrderDoc.items o).

Definition email_taken : Exception := HTTPException 400 "Email already registered".
Definition invalid_credentials : Exception := HTTPException 401 "Invalid credentials".
Definition cart_is_empty : Exception := HTTPException 400 "Cart is empty".

Section Main.
Context {rt : Runtime}.

(** [bool(db)], the test in [db[...].find_one(...) if db else None]: [db] is
    the pymongo [Database] of the connected store, which does not implement
    truth-value testing and raises [NotImplementedError] when asked.  (The
    diagnostics endpoint tests [db is not None] instead.) *)
Definition db_truth : M bool := raise NotImplementedError.

(** [pwd_context.hash(password)]; passlib raises on a password it refuses. *)
Definition hash_password (password : string) : M string :=
  fun w =>
    match pwd_context_hash (salts_drawn w) password with
    | Some hashed =>
        (Ok hashed,
         mkWorld (db w) (clock_reads w) (oids_made w) (S (salts_drawn w)))
    | None => (Raise ValueError, w)
    end.

(** [pwd_context.verify(password, hashed)]; passlib raises on a password it
    refuses and on a hash it cannot identify. *)
Definition verify_password (password hashed : string) : M bool :=
  match pwd_context_verify password hashed with
  | Some verified => ret verified
  | None => raise ValueError
  end.

Definition create_token (user_id : string) : M string :=
  now <- utc_now ;;
  ret ("tok_" ++ user_id ++ "_"
         ++ Py.str_of_int (Py.int_of_float (timestamp now)))%string.

(** [POST /auth/signup]. *)
Definition signup (payload : SignupRequest.t) : M AuthResponse.t :=
  existing <- (truth <- db_truth ;;
               if truth
               then find_one user_c (email_is (SignupRequest.email payload))
               else ret None) ;;
  match existing with
  | Some _ => raise email_taken
  | None =>
      hashed <- hash_password (SignupRequest.password payload) ;;
      let user_doc :=
        User.mk (SignupRequest.name payload) (SignupRequest.email payload)
                hashed None true in
      uid <- create_document user_c (fun _ => true)
               (fun oid => UserDoc.mk oid user_doc) ;;
      token <- create_token uid ;;
      ret (AuthResponse.mk uid (User.name user_doc) (User.email user_doc) token)
  end.

(** [POST /auth/login]. *)
Definition login (payload : LoginRequest.t) : M AuthResponse.t :=
  user <- (truth <- db_truth ;;
           if truth
           then find_one user_c (email_is (LoginRequest.email payload))
           else ret None) ;;
  match user with
  | None => raise invalid_credentials
  | Some u =>
      verified <- verify_password (LoginRequest.password payload)
                    (User.password_hash (UserDoc.fields u)) ;;
      if negb verified
      then raise invalid_credentials
      else
        token <- create_token (ObjectId.str (UserDoc._id u)) ;;
        ret (AuthResponse.mk (ObjectId.str (UserDoc._id u))
               (User.name (UserDoc.fields u)) (User.email (UserDoc.fields u))
               token)
  end.

(** [GET /products]. *)
Definition list_products : M (list Product.t) :=
  docs <- get_documents product_c 100 ;;
  ret (map ProductDoc.fields docs).

(** [POST /products].  The body is a [CreateProductRequest], a [Product]:
    one that does not validate is turned away before the handler's body
    runs. *)
Definition create_product (payload : Product.t) : M string :=
  if Product.validate payload
  then create_document product_c product_encodable
         (fun oid => ProductDoc.mk oid payload)
  else raise RequestValidationError.

(** [GET /cart/{user_id}].  The loop that pops [_id] from each item of a
    cart found changes nothing: the items stored carry none. *)
Definition get_cart (user_id : string) : M CartResponse.t :=
  cart <- (truth <- db_truth ;;
           if truth then find_one cart_c (cart_of user_id) else ret None) ;;
  match cart with
  | None =>
      let cart_doc := Cart.mk user_id [] in
      cid <- create_document cart_c cart_encodable
               (fun oid => CartDoc.mk oid (Cart.user_id cart_doc)
                             (Cart.items cart_doc) None) ;;
      ret (CartResponse.mk cid [])
  | Some c =>
      ret (CartResponse.mk (ObjectId.str (CartDoc._id c)) (CartDoc.items c))
  end.

(** [POST /cart/{user_id}/add].  Only the first add for a user goes through
    the [CartItem] schema; on a cart found the dumped request is appended as
    it is. *)
Definition add_to_cart (user_id : string) (payload : AddToCartRequest.t)
    : M CartResponse.t :=
  cart <- find_one cart_c (cart_of user_id) ;;
  let item := AddToCartRequest.model_dump payload in
  match cart with
  | None =>
      if CartItem.validate item
      then
        let cart_doc := Cart.mk user_id [item] in
        cid <- create_document cart_c cart_encodable
                 (fun oid => CartDoc.mk oid (Cart.user_id cart_doc)
                               (Cart.items cart_doc) None) ;;
        ret (CartResponse.mk cid [item])
      else raise ValidationError
  | Some c =>
      let items := CartDoc.items c ++ [item] in
      now <- utc_now ;;
      update_one cart_c (cart_id_is (CartDoc._id c))
        (forallb CartItem.encodable items) (CartDoc.set_items items now) ;;;
      ret (CartResponse.mk (ObjectId.str (CartDoc._id c)) items)
  end.

(** The operand [qty] of [price * qty], converted to a float. *)
Definition float_operand (qty : Z) : M float :=
  match Py.float_of_int qty with
  | Some q => ret q
  | None => raise OverflowError
  end.

(** The body of checkout's loop over the cart's items. *)
Definition checkout_item (it : CartItem.t) (acc : list OrderItem.t * float)
    : M (list OrderItem.t * float) :=
  let '(order_items, total) := acc in
  prod <- (if ObjectId.is_valid (CartItem.product_id it)
           then find_one product_c
                  (product_id_is (ObjectId.of_str (CartItem.product_id it)))
           else ret None) ;;
  let title :=
    match prod with
    | Some p => Product.title (ProductDoc.fields p)
    | None => "Item"
    end in
  let price :=
    match prod with
    | Some p => Product.price (ProductDoc.fields p)
    | None => 0%float
    end in
  let qty := CartItem.quantity it in
  q <- float_operand qty ;;
  let total := (total + price * q)%float in
  ret (order_items ++
         [OrderItem.mk (CartItem.product_id it) title price qty
            (CartItem.size it) (CartItem.color it)],
       total).

(** [POST /checkout]. *)
Definition checkout (payload : CheckoutRequest.t) : M CheckoutResponse.t :=
  cart <- find_one cart_c (cart_of (CheckoutRequest.user_id payload)) ;;
  match cart with
  | None => raise cart_is_empty
  | Some c =>
      match CartDoc.items c with
      | [] => raise cart_is_empty
      | _ :: _ =>
          ' (order_items, total) <-
              for_each (CartDoc.items c) checkout_item ([], 0%float) ;;
          created_at <- utc_now ;;
          updated_at <- utc_now ;;
          let order_doc oid :=
            OrderDoc.mk oid (CheckoutRequest.user_id payload) order_items
              (Py.round2 total) "paid"
              (CheckoutRequest.shipping_address payload)
              created_at updated_at in
          oid <- insert_one order_c order_encodable
                   (fun oid => OrderDoc.stored (order_doc oid)) ;;
          now <- utc_now ;;
          update_one cart_c (cart_of (CheckoutRequest.user_id payload))
            true (CartDoc.set_items [] now) ;;;
          ret (CheckoutResponse.mk (ObjectId.str oid)
                 (OrderDoc.total (order_doc oid)) "paid")
      end
  end.

(** *** Sequences of requests *)

Inductive Request :=
| PostSignup (payload : SignupRequest.t)
| PostLogin (payload : LoginRequest.t)
| GetProducts
| PostProducts (payload : Product.t)
| GetCart (user_id : string)
| PostCartAdd (user_id : string) (payload : AddToCartRequest.t)
| PostCheckout (payload : CheckoutRequest.t).

(** The world after a request was served (whether it succeeded or not). *)
Definition serve (w : World) (r : Request) : World :=
  match r with
  | PostSignup p => snd (signup p w)
  | PostLogin p => snd (login p w)
  | GetProducts => snd (list_products w)
  | PostProducts p => snd (create_product p w)
  | GetCart u => snd (get_cart u w)
  | PostCartAdd u p => snd (add_to_cart u p w)
  | PostCheckout p => snd (checkout p w)
  end.

(** Requests served one after the other. *)
Definition serve_all (rs : list Request) (w : World) : World :=
  fold_left serve rs w.

End Main.

(* ===================================================================== *)
(** ** A concrete runtime and some worlds, for running the handlers *)
(* ===================================================================== *)

Module Demo.

Definition hex_digit (n : N) : ascii :=
  if (n <? 10)%N then ascii_of_N (48 + n) else ascii_of_N (87 + n).

(** The last [k] hexadecimal digits of [n]. *)
Fixpoint hex (k : nat) (n : N) : string :=
  match k with
  | O => EmptyString
  | S k' => (hex k' (n / 16) ++ String (hex_digit (n mod 16)) EmptyString)%string
  end.

Fixpoint has_nul (s : string) : bool :=
  match s with
  | EmptyString => false
  | String c s' => (N_of_ascii c =? 0)%N || has_nul s'
  end.

(** A password the toy scheme takes: no NUL byte, at most 4096 bytes. *)
Definition acceptable (pw : string) : bool :=
  negb (has_nul pw) && (String.length pw <=? 4096)%nat.

(** A clock that advances by a second per reading (with microseconds),
    identifiers that count up from a fixed prefix, and a toy password
    scheme. *)
#[export] Instance runtime : Runtime := {|
  utc_clock n := 1700000000123456 + 1000000 * Z.of_nat n;
  generated_oid n := ("65f1a2b3" ++ hex 16 (N.of_nat n))%string;
  pwd_context_hash n pw :=
    if acceptable pw
    then Some ("$2b$" ++ hex 4 (N.of_nat n) ++ "$" ++ pw)%string
    else None;
  pwd_context_verify pw hashed :=
    if acceptable pw && String.prefix "$2b$" hashed
    then Some (String.eqb (substring 9 (String.length hashed - 9) hashed) pw)
    else None
|}.

Definition empty_db : Database := mkDatabase [] [] [] [].
Definition world0 : World := mkWorld empty_db 0 0 0.

Definition tee : Product.t :=
  Product.mk "Tee" None 10%float "shirts" [] [] true.

Definition alice : SignupRequest.t :=
  SignupRequest.mk "Alice" "alice@x.com" "pw123".

End Demo.

Module Scenario.
Import Demo.

Definition alice_id : string := "65f1a2b30000000000000000".
Definition tee_id : string := "65f1a2b30000000000000001".
Definition cart_id : string := "65f1a2b30000000000000002".

(** A store with one user, Alice, and one product, the tee. *)
Definition shop : World :=
  mkWorld
    (mkDatabase
       [UserDoc.mk alice_id
          (User.mk "Alice" "alice@x.com" "$2b$0000$pw123" None true)]
       [ProductDoc.mk tee_id tee] [] [])
    1 2 1.

Definition two_tees : AddToCartRequest.t :=
  AddToCartRequest.mk tee_id 2 None None.

Definition unknown_item : AddToCartRequest.t :=
  AddToCartRequest.mk "not-a-valid-id" 1 None None.

Definition no_tees : AddToCartRequest.t :=
  AddToCartRequest.mk tee_id 0 None None.

(** Alice's cart holds two tees. *)
Definition shopping : World := serve shop (PostCartAdd alice_id two_tees).

(** Alice's cart holds a line that refers to no product. *)
Definition shopping_unknown : World :=
  serve shop (PostCartAdd alice_id unknown_item).

Definition alice_checkout : CheckoutRequest.t :=
  CheckoutRequest.mk alice_id (Some "1 Main St").

Definition alice_cart (its : list CartItem.t) (t : option datetime) : CartDoc.t :=
  CartDoc.mk cart_id alice_id its t.

(** Alice and Bob each have a cart with two tees. *)
Definition two_carts : World := serve shopping (PostCartAdd "bob" two_tees).

End Scenario.

(* ===================================================================== *)
(** ** The vocabulary of the statements *)
(* ===================================================================== *)

Section Vocabulary.
Context {rt : Runtime}.

(** *** What checkout computes *)

(** The product a cart line refers to, if any. *)
Definition resolve (w : World) (pid : string) : option ProductDoc.t :=
  if ObjectId.is_valid pid
  then find (product_id_is (ObjectId.of_str pid)) (product (db w))
  else None.

(** The order line taken from a cart line and the product it resolves to. *)
Definition snapshot (w : World) (it : CartItem.t) : OrderItem.t :=
  match resolve w (CartItem.product_id it) with
  | Some p =>
      OrderItem.mk (CartItem.product_id it)
        (Product.title (ProductDoc.fields p)) (Product.price (ProductDoc.fields p))
        (CartItem.quantity it) (CartItem.size it) (CartItem.color it)
  | None =>
      OrderItem.mk (CartItem.product_id it) "Item" 0%float
        (CartItem.quantity it) (CartItem.size it) (CartItem.color it)
  end.

(** [unit_price * quantity] of an order line, in floats. *)
Definition line_total (oi : OrderItem.t) : float :=
  (OrderItem.unit_price oi * Py.nearest_float (OrderItem.quantity oi))%float.

(** The order that checkout persists for cart [c], and the world it
    leaves. *)
Definition paid_order (w : World) (p : CheckoutRequest.t) (c : CartDoc.t)
    : OrderDoc.t :=
  let order_items := map (snapshot w) (CartDoc.items c) in
  OrderDoc.mk (generated_oid (oids_made w)) (CheckoutRequest.user_id p)
    order_items (Py.round2 (Py.fsum (map line_total order_items))) "paid"
    (CheckoutRequest.shipping_address p)
    (bson_datetime (utc_clock (clock_reads w)))
    (bson_datetime (utc_clock (S (clock_reads w)))).

Definition after_checkout (w : World) (p : CheckoutRequest.t) (c : CartDoc.t)
    : World :=
  mkWorld
    (mkDatabase (user (db w)) (product (db w))
       (update_first (cart_of (CheckoutRequest.user_id p))
          (CartDoc.set_items [] (utc_clock (S (S (clock_reads w)))))
          (cart (db w)))
       (order (db w) ++ [paid_order w p c]))
    (S (S (S (clock_reads w)))) (S (oids_made w)) (salts_drawn w).

(** *** How the cart collection evolves *)

(** How a request may change a collection of carts: not at all, by one more
    cart at the end (the first of its user), or by new items and update time
    in one cart; what is written was encoded. *)
Inductive cart_step (l : list CartDoc.t) : list CartDoc.t -> Prop :=
| cart_same : cart_step l l
| cart_added (new : CartDoc.t) :
    find (cart_of (CartDoc.user_id new)) l = None ->
    cart_encodable new = true ->
    cart_step l (l ++ [new])
| cart_updated (filter : CartDoc.t -> bool) (its : list CartItem.t) (t : datetime) :
    forallb CartItem.encodable its = true ->
    cart_step l (update_first filter (CartDoc.set_items its t) l).

(** Every cart in the store holds quantities that BSON can encode. *)
Definition carts_storable (w : World) : Prop :=
  forallb cart_encodable (cart (db w)) = true.

(** A quantity that the [CartItem] schema accepts and BSON can encode. *)
Definition storable_quantity (p : AddToCartRequest.t) : Prop :=
  1 <= AddToCartRequest.quantity p <= 2 ^ 63 - 1.

(** The user's cart is [c], it is the document its [_id] designates, and it
    holds the items [its]. *)
Definition holds_items (u : string) (w : World) (c : CartDoc.t)
    (its : list CartItem.t) : Prop :=
  find (cart_of u) (cart (db w)) = Some c
  /\ find (cart_id_is (CartDoc._id c)) (cart (db w)) = Some c
  /\ CartDoc.items c = its
  /\ forallb CartItem.encodable its = true.

(** *** Rounding to two decimal places *)

(** [n] hundredths is the two-digit decimal nearest to the number
    [m * 2^e]: at most half a hundredth away, and the even one of the two
    when the number lies half-way between them. *)
Definition nearest_hundredths (m : positive) (e : Z) (n : Z) : Prop :=
  if 0 <=? e
  then n = Z.pos m * 2 ^ e * 100
  else 2 * Z.abs (Z.pos m * 100 - n * 2 ^ (- e)) <= 2 ^ (- e)
       /\ (2 * Z.abs (Z.pos m * 100 - n * 2 ^ (- e)) = 2 ^ (- e) ->
           Z.even n = true).

(** The price checkout charges for a cart line: that of the product the line
    resolves to, 0.0 when it resolves to none. *)
Definition charged_price (w : World) (it : CartItem.t) : float :=
  match resolve w (CartItem.product_id it) with
  | Some prod => Product.price (ProductDoc.fields prod)
  | None => 0%float
  end.

(** *** What the store keeps across requests *)


Definition cart_owners (w : World) : list string :=
  map CartDoc.user_id (cart (db w)).

(** What never changes in a cart: its [_id] and its owner. *)
Definition cart_keys (w : World) : list (ObjectId.t * string) :=
  map (fun c => (CartDoc._id c, CartDoc.user_id c)) (cart (db w)).

(** Every stored product passes the [Product] schema. *)
Definition products_valid (w : World) : Prop :=
  Forall (fun d => Product.validate (ProductDoc.fields d) = true) (product (db w)).

(** An order as checkout writes one: paid, with at least one line, and with
    the rounded sum of its lines as total. *)
Definition order_well_formed (o : OrderDoc.t) : Prop :=
  OrderDoc.status o = "paid"
  /\ OrderDoc.items o <> []
  /\ OrderDoc.total o = Py.round2 (Py.fsum (map line_total (OrderDoc.items o))).

End Vocabulary.

(* ===================================================================== *)
(** ** Properties *)
(* ===================================================================== *)

Arguments Py.float_of_int : simpl never.
Arguments Py.round2 : simpl never.
Arguments Py.nearest_float : simpl never.
Arguments bson_int : simpl never.
Arguments checkout_item : simpl never.

(** *** The store's list operations *)

Lemma find_app_some {D} (f : D -> bool) (l l' : list D) (d : D) :
  find f l = Some d -> find f (l ++ l') = Some d.
Proof.
  induction l as [|a l IH]; simpl; [discriminate|].
  destruct (f a); auto.
Qed.

Lemma find_app_none {D} (f : D -> bool) (l l' : list D) :
  find f l = None -> find f (l ++ l') = find f l'.
Proof.
  induction l as [|a l IH]; simpl; [reflexivity|].
  destruct (f a); [discriminate | auto].
Qed.

(** When both filters find the same document, it is the one replaced. *)
Lemma find_update_first_hit {D} (f g : D -> bool) (set : D -> D) (l : list D) (c : D) :
  (forall d, f (set d) = f d) ->
  find f l = Some c -> find g l = Some c ->
  find f (update_first g set l) = Some (set c).
Proof.
  intros Hset. induction l as [|a l IH]; simpl; [discriminate|].
  intros Hf Hg.
  destruct (g a) eqn:Hga.
  - injection Hg as ->. simpl. rewrite Hset.
    destruct (f c) eqn:Hfc; [reflexivity|].
    apply find_some in Hf. destruct Hf as [_ Hf]. congruence.
  - simpl. destruct (f a) eqn:Hfa.
    + injection Hf as ->. apply find_some in Hg. destruct Hg as [_ Hg]. congruence.
    + auto.
Qed.

(** With the same filter, the first match is the one replaced. *)
Lemma find_update_first_same {D} (f : D -> bool) (set : D -> D) (l : list D) :
  (forall d, f (set d) = f d) ->
  find f (update_first f set l) = option_map set (find f l).
Proof.
  intros Hset. induction l as [|a l IH]; simpl; [reflexivity|].
  destruct (f a) eqn:Hf; simpl.
  - rewrite Hset, Hf. reflexivity.
  - rewrite Hf. exact IH.
Qed.

Lemma update_first_none {D} (f : D -> bool) (set : D -> D) (l : list D) :
  find f l = None -> update_first f set l = l.
Proof.
  induction l as [|a l IH]; simpl; [reflexivity|].
  destruct (f a); [discriminate|]. intros H. now rewrite IH.
Qed.

(** The replaced document, in place. *)
Lemma update_first_split {D} (f : D -> bool) (set : D -> D) (l : list D) (d : D) :
  find f l = Some d ->
  exists l1 l2, l = l1 ++ d :: l2 /\ update_first f set l = l1 ++ set d :: l2
                /\ find f l1 = None.
Proof.
  induction l as [|a l IH]; simpl; [discriminate|].
  destruct (f a) eqn:Hf.
  - intros [= ->]. exists [], l. auto.
  - intros H. destruct (IH H) as (l1 & l2 & -> & -> & Hn).
    exists (a :: l1), l2. simpl. rewrite Hf. auto.
Qed.

Lemma update_first_app {D} (f : D -> bool) (set : D -> D) (l l' : list D) (d : D) :
  find f l = Some d ->
  update_first f set (l ++ l') = update_first f set l ++ l'.
Proof.
  induction l as [|a l IH]; simpl; [discriminate|].
  destruct (f a); [reflexivity|]. intros H. now rewrite IH.
Qed.

Lemma fold_left_add_map {A} (g : A -> float) (l : list A) (t : float) :
  fold_left (fun acc x => (acc + x)%float) (map g l) t =
  fold_left (fun acc a => (acc + g a)%float) l t.
Proof.
  revert t. induction l as [|a l IH]; simpl; auto.
Qed.

(** Every integer a BSON document holds converts to a float. *)
Lemma float_of_bson_int (z : Z) :
  bson_int z = true -> Py.float_of_int z = Some (Py.nearest_float z).
Proof.
  unfold bson_int, Py.float_of_int. intros H.
  apply andb_true_iff in H. destruct H as [Hlo Hhi].
  apply Z.leb_le in Hlo. apply Z.leb_le in Hhi.
  assert (Hlim : 2 ^ 63 < Py.float_limit) by (vm_compute; reflexivity).
  replace (Z.abs z <? Py.float_limit) with true; [reflexivity|].
  symmetry. apply Z.ltb_lt. lia.
Qed.

(** [round_half_even] gives a nearest integer, the even one on a tie. *)
Lemma round_half_even_nearest (num den : Z) :
  0 < den ->
  2 * Z.abs (num - Py.round_half_even num den * den) <= den
  /\ (2 * Z.abs (num - Py.round_half_even num den * den) = den ->
      Z.even (Py.round_half_even num den) = true).
Proof.
  intros Hden. unfold Py.round_half_even.
  pose proof (Z.div_mod num den ltac:(lia)) as Hdm.
  pose proof (Z.mod_pos_bound num den Hden) as Hr.
  set (q := num / den) in *. set (r := num mod den) in *.
  clearbody q r.
  destruct (Z.compare_spec (2 * r) den) as [Hcmp | Hcmp | Hcmp].
  - destruct (Z.even q) eqn:Hev.
    + replace (num - q * den) with r by lia. split; [lia|auto].
    + replace (num - (q + 1) * den) with (r - den) by lia.
      split; [lia|]. intros _.
      rewrite Z.even_add, Hev. reflexivity.
  - replace (num - q * den) with r by lia.
    split; [lia | intros; exfalso; lia].
  - replace (num - (q + 1) * den) with (r - den) by lia.
    split; [lia | intros; exfalso; lia].
Qed.

Lemma hundredths_nearest (m : positive) (e : Z) :
  nearest_hundredths m e (Py.hundredths m e).
Proof.
  unfold nearest_hundredths, Py.hundredths.
  destruct (0 <=? e) eqn:He; [reflexivity|].
  apply round_half_even_nearest. apply Z.pow_pos_nonneg; [lia|].
  apply Z.leb_gt in He. lia.
Qed.

Section Properties.
Context {rt : Runtime}.

(** Unfolding a handler down to the store. *)
Ltac run_checkout :=
  unfold checkout, utc_now, insert_one, update_one, new_ObjectId, modify_db,
    order_encodable, find_one, bind, raise, ret;
  cbn [docs set_docs cart_c order_c db cart order user product
       clock_reads oids_made salts_drawn OrderDoc.items OrderDoc.total
       OrderDoc.stored fst snd].

Ltac world_fields :=
  cbn [docs set_docs cart_c order_c db cart order user product
       clock_reads oids_made salts_drawn OrderDoc.items OrderDoc.total
       OrderDoc.stored fst snd].

Ltac run_handler :=
  unfold signup, login, list_products, create_product, get_cart, add_to_cart,
    create_token, hash_password, create_document, get_documents,
    utc_now, insert_one, update_one, new_ObjectId, modify_db,
    find_one, bind, raise, ret;
  cbn [docs set_docs user_c product_c cart_c order_c db cart order user product
       clock_reads oids_made salts_drawn fst snd].

Lemma snapshot_quantity w it :
  OrderItem.quantity (snapshot w it) = CartItem.quantity it.
Proof. unfold snapshot. destruct (resolve w _); reflexivity. Qed.

Lemma checkout_item_world it acc w :
  snd (checkout_item it acc w) = w.
Proof.
  destruct acc as [ois t]. unfold checkout_item, bind, find_one, ret, float_operand.
  destruct (ObjectId.is_valid _); simpl;
    destruct (Py.float_of_int _); reflexivity.
Qed.

Lemma checkout_item_ok it ois t r w w' :
  checkout_item it (ois, t) w = (Ok r, w') ->
  r = (ois ++ [snapshot w it], (t + line_total (snapshot w it))%float)
  /\ Py.float_of_int (CartItem.quantity it)
     = Some (Py.nearest_float (CartItem.quantity it)).
Proof.
  unfold checkout_item, snapshot, resolve, line_total, bind, find_one, ret,
    float_operand, raise.
  unfold Py.float_of_int.
  destruct (ObjectId.is_valid _); simpl;
    [destruct (find _ _)|]; simpl;
    destruct (Z.abs _ <? _); simpl; intros [= <- <-] || discriminate; auto.
Qed.

Lemma checkout_item_some it ois t w :
  Py.float_of_int (CartItem.quantity it)
  = Some (Py.nearest_float (CartItem.quantity it)) ->
  checkout_item it (ois, t) w
  = (Ok (ois ++ [snapshot w it], (t + line_total (snapshot w it))%float), w).
Proof.
  intros Hq.
  unfold checkout_item, snapshot, resolve, line_total, bind, find_one, ret,
    float_operand, raise.
  rewrite Hq.
  destruct (ObjectId.is_valid _); simpl; [destruct (find _ _)|]; reflexivity.
Qed.

Lemma checkout_loop_world its acc w :
  snd (for_each its checkout_item acc w) = w.
Proof.
  revert acc. induction its as [|it its IH]; intros acc; simpl; [reflexivity|].
  unfold bind. pose proof (checkout_item_world it acc w) as Hw.
  destruct (checkout_item it acc w) as [[r|e] w1]; simpl in Hw; subst w1.
  - apply IH.
  - reflexivity.
Qed.

Lemma checkout_loop_ok its ois t r w w' :
  for_each its checkout_item (ois, t) w = (Ok r, w') ->
  w' = w
  /\ r = (ois ++ map (snapshot w) its,
          fold_left (fun acc x => (acc + x)%float)
            (map line_total (map (snapshot w) its)) t)
  /\ forallb (fun it => match Py.float_of_int (CartItem.quantity it) with
                        | Some _ => true | None => false end) its = true.
Proof.
  revert ois t. induction its as [|it its IH]; intros ois t; simpl.
  - unfold ret. intros [= <- <-]. rewrite app_nil_r. auto.
  - unfold bind. pose proof (checkout_item_world it (ois, t) w) as Hw.
    destruct (checkout_item it (ois, t) w) as [[r1|e] w1] eqn:Hit;
      simpl in Hw; subst w1; [|intros H; discriminate H].
    apply checkout_item_ok in Hit. destruct Hit as [-> Hq].
    intros H. apply IH in H. destruct H as (-> & -> & Hall).
    rewrite <- app_assoc, Hq. simpl. auto.
Qed.

Lemma checkout_loop_some its ois t w :
  forallb CartItem.encodable its = true ->
  for_each its checkout_item (ois, t) w
  = (Ok (ois ++ map (snapshot w) its,
         fold_left (fun acc x => (acc + x)%float)
           (map line_total (map (snapshot w) its)) t), w).
Proof.
  revert ois t. induction its as [|it its IH]; intros ois t; simpl.
  - intros _. unfold ret. now rewrite app_nil_r.
  - intros H. apply andb_true_iff in H. destruct H as [Hit Hits].
    unfold bind. rewrite checkout_item_some
      by (apply float_of_bson_int; exact Hit).
    rewrite IH by exact Hits. now rewrite <- app_assoc.
Qed.

Lemma snapshots_encodable w its :
  forallb OrderItem.encodable (map (snapshot w) its)
  = forallb CartItem.encodable its.
Proof.
  induction its as [|it its IH]; simpl; [reflexivity|].
  rewrite IH. unfold OrderItem.encodable, CartItem.encodable.
  now rewrite snapshot_quantity.
Qed.

(** A successful checkout found a cart with items, and did exactly this. *)
Lemma checkout_ok_inv p w r w' :
  checkout p w = (Ok r, w') ->
  exists c,
    find (cart_of (CheckoutRequest.user_id p)) (cart (db w)) = Some c
    /\ CartDoc.items c <> []
    /\ forallb CartItem.encodable (CartDoc.items c) = true
    /\ r = CheckoutResponse.mk (ObjectId.str (generated_oid (oids_made w)))
             (OrderDoc.total (paid_order w p c)) "paid"
    /\ w' = after_checkout w p c.
Proof.
  run_checkout.
  destruct (find _ _) as [c|] eqn:Hfind; [|discriminate].
  destruct (CartDoc.items c) as [|it its] eqn:Hitems; [discriminate|].
  rewrite <- Hitems.
  destruct (for_each (CartDoc.items c) checkout_item ([], 0%float) w)
    as [[[ois t]|e] w1] eqn:Hloop; [|discriminate].
  apply checkout_loop_ok in Hloop. destruct Hloop as (-> & Hr & _).
  injection Hr as -> ->. world_fields.
  rewrite ?app_nil_l, snapshots_encodable.
  destruct (forallb CartItem.encodable (CartDoc.items c)) eqn:Henc;
    [|discriminate].
  world_fields. intros [= <- <-]. exists c.
  unfold after_checkout, paid_order, Py.fsum.
  repeat split; auto. rewrite Hitems. discriminate.
Qed.

(** A cart with items, all of them integers of the store, checks out. *)
Lemma checkout_ok p w c :
  find (cart_of (CheckoutRequest.user_id p)) (cart (db w)) = Some c ->
  CartDoc.items c <> [] ->
  forallb CartItem.encodable (CartDoc.items c) = true ->
  checkout p w
  = (Ok (CheckoutResponse.mk (ObjectId.str (generated_oid (oids_made w)))
           (OrderDoc.total (paid_order w p c)) "paid"),
     after_checkout w p c).
Proof.
  intros Hfind Hne Henc. run_checkout. rewrite Hfind.
  destruct (CartDoc.items c) as [|it its] eqn:Hitems; [congruence|].
  rewrite <- Hitems in *.
  rewrite checkout_loop_some by exact Henc. world_fields.
  rewrite ?app_nil_l, snapshots_encodable, Henc. world_fields.
  reflexivity.
Qed.

(** A checkout that raises leaves the store as it was. *)
Lemma checkout_raise_db p w e w' :
  checkout p w = (Raise e, w') -> db w' = db w.
Proof.
  run_checkout.
  destruct (find _ _) as [c|] eqn:Hfind; [|now intros [= _ <-]].
  destruct (CartDoc.items c) as [|it its] eqn:Hitems; [now intros [= _ <-]|].
  rewrite <- Hitems.
  pose proof (checkout_loop_world (CartDoc.items c) ([], 0%float) w) as Hw.
  destruct (for_each (CartDoc.items c) checkout_item ([], 0%float) w)
    as [[[ois t]|e1] w1] eqn:Hloop; simpl in Hw; subst w1;
    [|now intros [= _ <-]].
  world_fields.
  destruct (forallb _ _); [discriminate|].
  now intros [= _ <-].
Qed.

(** The sum over the snapshots is the sum the loop accumulates over the
    cart. *)
Lemma snapshots_total w its t :
  fold_left (fun acc x => (acc + x)%float)
    (map line_total (map (snapshot w) its)) t
  = fold_left
      (fun total it =>
         (total + charged_price w it * Py.nearest_float (CartItem.quantity it))%float)
      its t.
Proof.
  revert t. induction its as [|it its IH]; intros t; [reflexivity|].
  cbn [map fold_left]. rewrite IH. f_equal.
  unfold line_total, snapshot, charged_price.
  destruct (resolve w (CartItem.product_id it)); reflexivity.
Qed.

(** The three handlers that test [db] for truth stop there. *)
Lemma signup_store_test p w : signup p w = (Raise NotImplementedError, w).
Proof. reflexivity. Qed.

Lemma login_store_test p w : login p w = (Raise NotImplementedError, w).
Proof. reflexivity. Qed.

Lemma get_cart_store_test u w : get_cart u w = (Raise NotImplementedError, w).
Proof. reflexivity. Qed.

(** *** Checkout *)

Lemma cart_of_set_items u its t d :
  cart_of u (CartDoc.set_items its t d) = cart_of u d.
Proof. reflexivity. Qed.

(** C1. Checkout for a user who has no cart, or whose cart has no items,
    raises the 400 error "Cart is empty" and leaves the world exactly as it
    was: no order document is created and nothing stored is modified. *)
Theorem checkout_empty_cart_fails (p : CheckoutRequest.t) (w : World) :
  (find (cart_of (CheckoutRequest.user_id p)) (cart (db w)) = None
   \/ exists c, find (cart_of (CheckoutRequest.user_id p)) (cart (db w)) = Some c
                /\ CartDoc.items c = []) ->
  checkout p w = (Raise (HTTPException 400 "Cart is empty"), w).
Proof.
  intros [Hnone | (c & Hsome & Hempty)];
    unfold checkout, bind, find_one; cbn [docs cart_c].
  - rewrite Hnone. reflexivity.
  - rewrite Hsome, Hempty. reflexivity.
Qed.

(** C9. A successful checkout appends one order with status "paid" for the
    user; its items are, in cart order, one per cart item, each keeping the
    cart item's product_id, quantity, size and color, with the title and
    price of the product it resolves to at that moment ("Item" and 0.0 when
    it resolves to none); the response is the order's id, its total and
    "paid". *)
Theorem checkout_order_snapshot (p : CheckoutRequest.t) (w : World)
    (r : CheckoutResponse.t) (w' : World) :
  checkout p w = (Ok r, w') ->
  exists c o,
    find (cart_of (CheckoutRequest.user_id p)) (cart (db w)) = Some c
    /\ order (db w') = order (db w) ++ [o]
    /\ OrderDoc.status o = "paid"
    /\ OrderDoc.user_id o = CheckoutRequest.user_id p
    /\ Forall2
         (fun it oi =>
            OrderItem.product_id oi = CartItem.product_id it
            /\ OrderItem.quantity oi = CartItem.quantity it
            /\ OrderItem.size oi = CartItem.size it
            /\ OrderItem.color oi = CartItem.color it
            /\ match resolve w (CartItem.product_id it) with
               | Some prod =>
                   OrderItem.title oi = Product.title (ProductDoc.fields prod)
                   /\ OrderItem.unit_price oi = Product.price (ProductDoc.fields prod)
               | None =>
                   OrderItem.title oi = "Item" /\ OrderItem.unit_price oi = 0%float
               end)
         (CartDoc.items c) (OrderDoc.items o)
    /\ r = CheckoutResponse.mk (ObjectId.str (OrderDoc._id o)) (OrderDoc.total o) "paid".
Proof.
  intros H. apply checkout_ok_inv in H.
  destruct H as (c & Hfind & _ & _ & -> & ->).
  exists c, (paid_order w p c). repeat split; auto.
  unfold paid_order. cbn [OrderDoc.items].
  induction (CartDoc.items c) as [|it its IH]; simpl; constructor; auto.
  unfold snapshot.
  destruct (resolve w (CartItem.product_id it)); cbn; repeat split; reflexivity.
Qed.

(** C2. The order a successful checkout persists has as total the sum,
    accumulated from 0.0 in cart order in floats, of unit_price * quantity over
    the items of the cart as resolved (the price of the product a line
    resolves to, 0.0 when none), rounded to two decimal places; it is also
    the rounded sum over the order's own lines, and the response carries the
    same total.  The rounding of a finite float is to the nearest hundredth
    of its exact value (the even one on a tie), given back as the float
    nearest to that decimal; zeros, infinities and NaN are left as they are.
    A cart whose only item has quantity 2 and resolves to a product priced
    10.0 checks out, with total 20.0 and the one order line (10.0, 2). *)
Theorem checkout_total (p : CheckoutRequest.t) (w : World) :
  (forall r w',
     checkout p w = (Ok r, w') ->
     exists c o,
       find (cart_of (CheckoutRequest.user_id p)) (cart (db w)) = Some c
       /\ order (db w') = order (db w) ++ [o]
       /\ OrderDoc.total o
          = Py.round2
              (fold_left
                 (fun total it =>
                    (total
                     + match resolve w (CartItem.product_id it) with
                       | Some prod => Product.price (ProductDoc.fields prod)
                       | None => 0
                       end * Py.nearest_float (CartItem.quantity it))%float)
                 (CartDoc.items c) 0%float)
       /\ OrderDoc.total o = Py.round2 (Py.fsum (map line_total (OrderDoc.items o)))
       /\ CheckoutResponse.total r = OrderDoc.total o)
  /\ (forall x s m e,
        Prim2SF x = S754_finite s m e ->
        exists n,
          nearest_hundredths m e n
          /\ Py.round2 x
             = match n with
               | Z.pos k => Py.div_nearest s k 100
               | _ => SF2Prim (S754_zero s)
               end)
  /\ (forall x,
        (forall s m e, Prim2SF x <> S754_finite s m e) -> Py.round2 x = x)
  /\ (forall c pid sz col prod,
        find (cart_of (CheckoutRequest.user_id p)) (cart (db w)) = Some c ->
        CartDoc.items c = [CartItem.mk pid 2 sz col] ->
        resolve w pid = Some prod ->
        Product.price (ProductDoc.fields prod) = 10%float ->
        exists r w' o,
          checkout p w = (Ok r, w')
          /\ order (db w') = order (db w) ++ [o]
          /\ OrderDoc.items o
             = [OrderItem.mk pid (Product.title (ProductDoc.fields prod))
                  10%float 2 sz col]
          /\ OrderDoc.total o = 20%float
          /\ CheckoutResponse.total r = 20%float).
Proof.
  split; [|split; [|split]].
  - intros r w' H. apply checkout_ok_inv in H.
    destruct H as (c & Hfind & _ & _ & -> & ->).
    exists c, (paid_order w p c). split; [exact Hfind|]. split; [reflexivity|].
    split; [|split; reflexivity].
    unfold paid_order, Py.fsum. cbn [OrderDoc.total].
    rewrite snapshots_total. reflexivity.
  - intros x s m e Hx. exists (Py.hundredths m e).
    split; [apply hundredths_nearest|].
    unfold Py.round2. rewrite Hx. reflexivity.
  - intros x Hx. unfold Py.round2.
    destruct (Prim2SF x) as [| | |s m e] eqn:Hsf; try reflexivity.
    exfalso. exact (Hx s m e eq_refl).
  - intros c pid sz col prod Hfind Hitems Hres Hprice.
    assert (Hne : CartDoc.items c <> []) by (rewrite Hitems; discriminate).
    assert (Henc : forallb CartItem.encodable (CartDoc.items c) = true)
      by (rewrite Hitems; reflexivity).
    exists (CheckoutResponse.mk (ObjectId.str (generated_oid (oids_made w)))
              (OrderDoc.total (paid_order w p c)) "paid"),
      (after_checkout w p c), (paid_order w p c).
    split; [apply checkout_ok; assumption|].
    split; [reflexivity|].
    unfold paid_order. cbn [OrderDoc.items OrderDoc.total CheckoutResponse.total].
    rewrite Hitems. cbn [map]. unfold snapshot. cbn [CartItem.product_id].
    rewrite Hres, Hprice. cbn [CartItem.quantity CartItem.size CartItem.color].
    unfold line_total, Py.fsum.
    cbn [fold_left OrderItem.unit_price OrderItem.quantity].
    assert (Hsum : Py.round2 (0 + 10 * Py.nearest_float 2)%float = 20%float)
      by (vm_compute; reflexivity).
    rewrite Hsum. repeat split; reflexivity.
Qed.

(** C3. When the user's cart has items, all with quantities the store can
    hold, checkout does not fail: it persists an order with one line per cart
    item, and every cart item whose product_id is not a valid identifier, or
    is the identifier of no product, gets at its position the line with its
    own product_id, quantity, size and color, title "Item" and price 0.0. *)
Theorem checkout_tolerates_unresolved_items (p : CheckoutRequest.t) (w : World)
    (c : CartDoc.t) :
  find (cart_of (CheckoutRequest.user_id p)) (cart (db w)) = Some c ->
  CartDoc.items c <> [] ->
  forallb CartItem.encodable (CartDoc.items c) = true ->
  exists r w' o,
    checkout p w = (Ok r, w')
    /\ order (db w') = order (db w) ++ [o]
    /\ List.length (OrderDoc.items o) = List.length (CartDoc.items c)
    /\ forall i it,
         nth_error (CartDoc.items c) i = Some it ->
         (ObjectId.is_valid (CartItem.product_id it) = false
          \/ find (product_id_is (ObjectId.of_str (CartItem.product_id it)))
               (product (db w)) = None) ->
         nth_error (OrderDoc.items o) i
         = Some (OrderItem.mk (CartItem.product_id it) "Item" 0%float
                   (CartItem.quantity it) (CartItem.size it) (CartItem.color it)).
Proof.
  intros Hfind Hne Henc.
  exists (CheckoutResponse.mk (ObjectId.str (generated_oid (oids_made w)))
            (OrderDoc.total (paid_order w p c)) "paid"),
    (after_checkout w p c), (paid_order w p c).
  split; [apply checkout_ok; assumption|].
  split; [reflexivity|].
  unfold paid_order. cbn [OrderDoc.items].
  split; [apply length_map|].
  intros i it Hnth Hbad.
  rewrite nth_error_map, Hnth. cbn [option_map]. f_equal.
  unfold snapshot, resolve.
  destruct Hbad as [Hinv | Hnone]; [rewrite Hinv | rewrite Hnone].
  - reflexivity.
  - destruct (ObjectId.is_valid _); reflexivity.
Qed.

(** C4. After a successful checkout the user's cart (the document checkout
    read) has no items and carries the time of the clearing, as the store
    keeps it, as its update time, the rest of it unchanged.  The get_cart that
    follows for that user does not return items = []: it stops at its test of
    [db] and raises. *)
Theorem checkout_clears_cart (p : CheckoutRequest.t) (w : World)
    (r : CheckoutResponse.t) (w' : World) :
  checkout p w = (Ok r, w') ->
  exists c,
    find (cart_of (CheckoutRequest.user_id p)) (cart (db w)) = Some c
    /\ CartDoc.items c <> []
    /\ find (cart_of (CheckoutRequest.user_id p)) (cart (db w'))
       = Some (CartDoc.mk (CartDoc._id c) (CartDoc.user_id c) []
                 (Some (bson_datetime (utc_clock (2 + clock_reads w)))))
    /\ get_cart (CheckoutRequest.user_id p) w' = (Raise NotImplementedError, w').
Proof.
  intros H. apply checkout_ok_inv in H.
  destruct H as (c & Hfind & Hne & _ & _ & ->).
  exists c. split; [exact Hfind|]. split; [exact Hne|].
  split; [|apply get_cart_store_test].
  unfold after_checkout. cbn [db cart].
  rewrite find_update_first_same by (intros d; apply cart_of_set_items).
  rewrite Hfind. reflexivity.
Qed.

(** C10. Checkout never touches the user and product collections.  When it
    raises, the whole store is as it was.  When it succeeds, the order
    collection has one more document at its end and the cart collection
    differs in one document only, the first cart of the user, and there in
    its items and update time only. *)
Theorem checkout_frame (p : CheckoutRequest.t) (w : World) :
  user (db (snd (checkout p w))) = user (db w)
  /\ product (db (snd (checkout p w))) = product (db w)
  /\ match checkout p w with
     | (Raise _, w') => db w' = db w
     | (Ok _, w') =>
         (exists o, order (db w') = order (db w) ++ [o])
         /\ exists l1 c l2 t,
              cart (db w) = l1 ++ c :: l2
              /\ find (cart_of (CheckoutRequest.user_id p)) l1 = None
              /\ cart_of (CheckoutRequest.user_id p) c = true
              /\ cart (db w')
                 = l1 ++ CartDoc.mk (CartDoc._id c) (CartDoc.user_id c) [] (Some t) :: l2
     end.
Proof.
  destruct (checkout p w) as [[r|e] w'] eqn:H; cbn [snd].
  - apply checkout_ok_inv in H. destruct H as (c & Hfind & _ & _ & _ & ->).
    unfold after_checkout. cbn [db user product cart order].
    repeat split; eauto.
    destruct (update_first_split (cart_of (CheckoutRequest.user_id p))
                (CartDoc.set_items [] (utc_clock (S (S (clock_reads w)))))
                _ _ Hfind) as (l1 & l2 & Hl & Hl' & Hn).
    exists l1, c, l2, (bson_datetime (utc_clock (S (S (clock_reads w))))).
    repeat split; auto.
    apply find_some in Hfind. tauto.
  - apply checkout_raise_db in H. rewrite H. auto.
Qed.

(** *** What each handler does to the store *)

Lemma create_product_db p w :
  user (db (snd (create_product p w))) = user (db w)
  /\ cart (db (snd (create_product p w))) = cart (db w).
Proof.
  run_handler. destruct (Product.validate p); [|auto].
  destruct (product_encodable _); auto.
Qed.

Lemma add_to_cart_new u p w :
  find (cart_of u) (cart (db w)) = None ->
  CartItem.validate (AddToCartRequest.model_dump p) = true ->
  CartItem.encodable (AddToCartRequest.model_dump p) = true ->
  add_to_cart u p w
  = (Ok (CartResponse.mk (ObjectId.str (generated_oid (oids_made w)))
           [AddToCartRequest.model_dump p]),
     mkWorld (mkDatabase (user (db w)) (product (db w))
                (cart (db w) ++ [CartDoc.mk (generated_oid (oids_made w)) u
                                   [AddToCartRequest.model_dump p] None])
                (order (db w)))
       (clock_reads w) (S (oids_made w)) (salts_drawn w)).
Proof.
  intros H Hv He. run_handler. rewrite H, Hv.
  unfold cart_encodable. cbn [CartDoc.items Cart.items forallb].
  rewrite He. reflexivity.
Qed.

Lemma add_to_cart_found u p w c :
  find (cart_of u) (cart (db w)) = Some c ->
  forallb CartItem.encodable (CartDoc.items c ++ [AddToCartRequest.model_dump p])
  = true ->
  add_to_cart u p w
  = (Ok (CartResponse.mk (ObjectId.str (CartDoc._id c))
           (CartDoc.items c ++ [AddToCartRequest.model_dump p])),
     mkWorld (mkDatabase (user (db w)) (product (db w))
                (update_first (cart_id_is (CartDoc._id c))
                   (CartDoc.set_items
                      (CartDoc.items c ++ [AddToCartRequest.model_dump p])
                      (utc_clock (clock_reads w)))
                   (cart (db w)))
                (order (db w)))
       (S (clock_reads w)) (oids_made w) (salts_drawn w)).
Proof. intros H He. run_handler. rewrite H, He. reflexivity. Qed.

Lemma add_to_cart_step u p w :
  user (db (snd (add_to_cart u p w))) = user (db w)
  /\ cart_step (cart (db w)) (cart (db (snd (add_to_cart u p w)))).
Proof.
  run_handler. destruct (find _ _) as [c|] eqn:Hfind.
  - destruct (forallb _ _) eqn:Henc; cbn [snd db user cart]; split; auto;
      constructor. exact Henc.
  - destruct (CartItem.validate _); [|split; auto; constructor].
    destruct (cart_encodable _) eqn:Henc; cbn [snd db user cart]; split; auto;
      constructor; assumption.
Qed.

Lemma get_cart_step u w :
  user (db (snd (get_cart u w))) = user (db w)
  /\ cart_step (cart (db w)) (cart (db (snd (get_cart u w)))).
Proof. rewrite get_cart_store_test. split; auto; constructor. Qed.

Lemma checkout_step p w :
  user (db (snd (checkout p w))) = user (db w)
  /\ cart_step (cart (db w)) (cart (db (snd (checkout p w)))).
Proof.
  destruct (checkout p w) as [[r|e] w'] eqn:H; cbn [snd].
  - apply checkout_ok_inv in H. destruct H as (c & _ & _ & _ & _ & ->).
    unfold after_checkout. cbn [db user cart]. split; auto.
    constructor. reflexivity.
  - apply checkout_raise_db in H. rewrite H. split; auto; constructor.
Qed.

Lemma serve_carts r w :
  cart_step (cart (db w)) (cart (db (serve w r))).
Proof.
  destruct r as [p|p| |p|u|u p|p]; cbn [serve].
  - rewrite signup_store_test. constructor.
  - rewrite login_store_test. constructor.
  - constructor.
  - destruct (create_product_db p w) as [_ ->]. constructor.
  - apply get_cart_step.
  - apply add_to_cart_step.
  - apply checkout_step.
Qed.

(** *** Signup, login and get_cart *)

(** C7. Signup does not succeed for any payload, a first signup with a new
    email included: the handler stops at its test of [db] for truth, which
    the pymongo Database refuses with NotImplementedError, before any
    look-up; no user is stored and nothing else changes. *)
Theorem signup_never_succeeds (p : SignupRequest.t) (w : World) :
  signup p w = (Raise NotImplementedError, w)
  /\ user (db (snd (signup p w))) = user (db w)
  /\ (find (email_is (SignupRequest.email p)) (user (db w)) = None ->
      forall r w', signup p w <> (Ok r, w')).
Proof.
  rewrite signup_store_test. repeat split. intros _ r w' H. discriminate H.
Qed.

(** C8. A login for an email that no stored user has, and a login for a
    stored user, whatever the password, both stop at the test of [db] for
    truth: they raise one and the same NotImplementedError, not the 401
    "Invalid credentials", and leave the world as it was. *)
Theorem login_never_reaches_credentials (p : LoginRequest.t) (w : World) :
  login p w = (Raise NotImplementedError, w)
  /\ fst (login p w) <> Raise (HTTPException 401 "Invalid credentials").
Proof.
  rewrite login_store_test. split; [reflexivity|]. cbn [fst]. discriminate.
Qed.

(** C6. A get_cart, for a user with or without a cart, stops at the test of
    [db] for truth and raises NotImplementedError: no cart is created, none
    is returned, and the world is as it was. *)
Theorem get_cart_never_returns (u : string) (w : World) :
  get_cart u w = (Raise NotImplementedError, w)
  /\ cart (db (snd (get_cart u w))) = cart (db w)
  /\ (find (cart_of u) (cart (db w)) = None ->
      find (cart_of u) (cart (db (snd (get_cart u w)))) = None).
Proof.
  rewrite get_cart_store_test. cbn [snd]. auto.
Qed.

(** *** The cart *)

Lemma cart_step_storable l l' :
  cart_step l l' ->
  forallb cart_encodable l = true -> forallb cart_encodable l' = true.
Proof.
  intros Hstep Hl. destruct Hstep as [|new _ Hnew|g its t Hits].
  - exact Hl.
  - rewrite forallb_app, Hl. cbn [forallb]. now rewrite Hnew.
  - induction l as [|a l IH]; [reflexivity|].
    cbn [forallb update_first] in *.
    apply andb_true_iff in Hl. destruct Hl as [Ha Hl].
    destruct (g a); cbn [forallb].
    + rewrite Hl. unfold cart_encodable at 1. cbn [CartDoc.set_items CartDoc.items].
      now rewrite Hits.
    + now rewrite Ha, IH.
Qed.

(** Stored quantities stay encodable whatever requests are served. *)
Lemma serve_all_carts_storable rs w :
  carts_storable w -> carts_storable (serve_all rs w).
Proof.
  revert w. induction rs as [|r rs IH]; intros w H; [exact H|].
  cbn [serve_all fold_left]. apply IH. unfold carts_storable in *.
  exact (cart_step_storable _ _ (serve_carts r w) H).
Qed.

Lemma carts_storable_find w u c :
  carts_storable w -> find (cart_of u) (cart (db w)) = Some c ->
  forallb CartItem.encodable (CartDoc.items c) = true.
Proof.
  unfold carts_storable. intros H Hfind. apply find_some in Hfind.
  destruct Hfind as [Hin _]. rewrite forallb_forall in H. exact (H c Hin).
Qed.

(** *** Adding to the cart *)

Lemma storable_encodable p :
  storable_quantity p ->
  CartItem.validate (AddToCartRequest.model_dump p) = true
  /\ CartItem.encodable (AddToCartRequest.model_dump p) = true.
Proof.
  unfold storable_quantity, CartItem.validate, CartItem.encodable, bson_int,
    AddToCartRequest.model_dump. cbn [CartItem.quantity].
  intros [Hlo Hhi]. split.
  - apply Z.leb_le. exact Hlo.
  - apply andb_true_iff. split; apply Z.leb_le; lia.
Qed.

Lemma cart_id_is_refl c : cart_id_is (CartDoc._id c) c = true.
Proof. unfold cart_id_is, ObjectId.eqb. apply String.eqb_refl. Qed.

Lemma add_to_cart_first u p w :
  find (cart_of u) (cart (db w)) = None ->
  find (cart_id_is (generated_oid (oids_made w))) (cart (db w)) = None ->
  storable_quantity p ->
  exists c,
    add_to_cart u p w
    = (Ok (CartResponse.mk (ObjectId.str (CartDoc._id c))
             [AddToCartRequest.model_dump p]),
       serve w (PostCartAdd u p))
    /\ holds_items u (serve w (PostCartAdd u p)) c [AddToCartRequest.model_dump p].
Proof.
  intros Hnone Hfresh Hq. destruct (storable_encodable p Hq) as [Hv He].
  cbn [serve]. rewrite (add_to_cart_new u p w Hnone Hv He). cbn [snd].
  eexists (CartDoc.mk _ u _ None). split; [reflexivity|].
  unfold holds_items. cbn [db cart CartDoc._id CartDoc.items forallb].
  rewrite !find_app_none by assumption. cbn [find].
  unfold cart_of at 1, cart_id_is at 1, ObjectId.eqb.
  cbn [CartDoc.user_id CartDoc._id]. rewrite !String.eqb_refl, He. auto.
Qed.

Lemma add_to_cart_next u p w c its :
  holds_items u w c its ->
  storable_quantity p ->
  exists c',
    add_to_cart u p w
    = (Ok (CartResponse.mk (ObjectId.str (CartDoc._id c))
             (its ++ [AddToCartRequest.model_dump p])),
       serve w (PostCartAdd u p))
    /\ CartDoc._id c' = CartDoc._id c
    /\ holds_items u (serve w (PostCartAdd u p)) c'
         (its ++ [AddToCartRequest.model_dump p]).
Proof.
  intros (Hu & Hid & Hits & Henc) Hq.
  destruct (storable_encodable p Hq) as [_ He].
  assert (Henc' : forallb CartItem.encodable
                    (CartDoc.items c ++ [AddToCartRequest.model_dump p]) = true).
  { rewrite forallb_app, Hits, Henc. cbn [forallb]. now rewrite He. }
  cbn [serve]. rewrite (add_to_cart_found u p w c Hu Henc'). cbn [snd].
  rewrite Hits in *.
  eexists (CartDoc.set_items _ _ c). split; [reflexivity|].
  split; [reflexivity|].
  unfold holds_items. cbn [db cart].
  split; [|split; [|split]].
  - apply find_update_first_hit; auto.
  - rewrite find_update_first_same by reflexivity.
    cbn [CartDoc.set_items CartDoc._id]. rewrite Hid. reflexivity.
  - reflexivity.
  - exact Henc'.
Qed.

Lemma add_to_cart_run u l : forall w c its,
  holds_items u w c its ->
  Forall storable_quantity l ->
  (forall l1 p l2,
     l = l1 ++ p :: l2 ->
     add_to_cart u p (serve_all (map (PostCartAdd u) l1) w)
     = (Ok (CartResponse.mk (ObjectId.str (CartDoc._id c))
              (its ++ map AddToCartRequest.model_dump (l1 ++ [p]))),
        serve_all (map (PostCartAdd u) (l1 ++ [p])) w))
  /\ exists c', CartDoc._id c' = CartDoc._id c
       /\ holds_items u (serve_all (map (PostCartAdd u) l) w) c'
            (its ++ map AddToCartRequest.model_dump l).
Proof.
  induction l as [|p0 l IH]; intros w c its Hw Hl.
  - split.
    + intros [|? ?] ? ? H; discriminate H.
    + exists c. cbn [map serve_all fold_left]. rewrite app_nil_r. auto.
  - inversion Hl as [|? ? Hp0 Hl']; subst.
    destruct (add_to_cart_next u p0 w c its Hw Hp0) as (c1 & Hcall & Hid1 & Hw1).
    destruct (IH _ _ _ Hw1 Hl') as [Hcalls (c' & Hid' & Hw')].
    split.
    + intros [|q l1] p l2 Heq.
      * injection Heq as <- _. exact Hcall.
      * injection Heq as <- Heq.
        cbn [map serve_all fold_left app].
        change (fold_left serve ?rs ?w0) with (serve_all rs w0).
        rewrite (Hcalls l1 p l2 Heq), Hid1, <- app_assoc. reflexivity.
    + exists c'. split; [congruence|].
      cbn [map serve_all fold_left].
      change (fold_left serve ?rs ?w0) with (serve_all rs w0).
      rewrite <- app_assoc in Hw'. exact Hw'.
Qed.

(** C5 (as amended). Take a user who has no cart (the next generated
    identifier being new to the cart collection), or whose cart is empty (and
    is the document its _id designates), and any requests I1..IN whose
    quantities are at least 1 and fit BSON's 64-bit integers.  Served one
    after the other, the k-th add_to_cart succeeds and returns the one cart id
    with the items [I1..Ik]; the user's stored cart ends with exactly
    [I1..IN], in call order: equal lines are kept apart, nothing is merged or
    summed. *)
Theorem add_to_cart_appends_in_order (u : string) (l : list AddToCartRequest.t)
    (w : World) :
  Forall storable_quantity l ->
  ((find (cart_of u) (cart (db w)) = None
    /\ find (cart_id_is (generated_oid (oids_made w))) (cart (db w)) = None)
   \/ exists c, find (cart_of u) (cart (db w)) = Some c
                /\ CartDoc.items c = []
                /\ find (cart_id_is (CartDoc._id c)) (cart (db w)) = Some c) ->
  exists cid,
    (forall l1 p l2,
       l = l1 ++ p :: l2 ->
       add_to_cart u p (serve_all (map (PostCartAdd u) l1) w)
       = (Ok (CartResponse.mk cid (map AddToCartRequest.model_dump (l1 ++ [p]))),
          serve_all (map (PostCartAdd u) (l1 ++ [p])) w))
    /\ (l <> [] ->
        exists c,
          find (cart_of u) (cart (db (serve_all (map (PostCartAdd u) l) w))) = Some c
          /\ ObjectId.str (CartDoc._id c) = cid
          /\ CartDoc.items c = map AddToCartRequest.model_dump l).
Proof.
  intros Hl [[Hnone Hfresh] | (c & Hu & Hempty & Hid)].
  - destruct l as [|p0 l].
    + exists EmptyString. split; [|congruence].
      intros [|? ?] ? ? H; discriminate H.
    + inversion Hl as [|? ? Hp0 Hl']; subst.
      destruct (add_to_cart_first u p0 w Hnone Hfresh Hp0) as (c & Hcall & Hw1).
      destruct (add_to_cart_run u l _ c _ Hw1 Hl') as [Hcalls (c' & Hid' & Hw')].
      exists (ObjectId.str (CartDoc._id c)). split.
      * intros [|q l1] p l2 Heq.
        -- injection Heq as <- _. exact Hcall.
        -- injection Heq as <- Heq.
           cbn [map serve_all fold_left app].
           change (fold_left serve ?rs ?w0) with (serve_all rs w0).
           exact (Hcalls l1 p l2 Heq).
      * intros _. exists c'.
        cbn [map serve_all fold_left].
        change (fold_left serve ?rs ?w0) with (serve_all rs w0).
        destruct Hw' as (Hf & _ & Hits & _). rewrite Hid'. auto.
  - assert (Hw : holds_items u w c []) by (unfold holds_items; auto).
    destruct (add_to_cart_run u l w c [] Hw Hl) as [Hcalls (c' & Hid' & Hw')].
    exists (ObjectId.str (CartDoc._id c)). split.
    + exact Hcalls.
    + intros _. exists c'. destruct Hw' as (Hf & _ & Hits & _).
      rewrite Hid'. auto.
Qed.

(** In a store whose carts are encodable, and so after any requests served
    from such a store, a cart with items always checks out. *)
Lemma checkout_after_requests rs w p c :
  carts_storable w ->
  find (cart_of (CheckoutRequest.user_id p)) (cart (db (serve_all rs w))) = Some c ->
  CartDoc.items c <> [] ->
  exists r w', checkout p (serve_all rs w) = (Ok r, w').
Proof.
  intros Hw Hfind Hne. eexists _, _. apply checkout_ok; eauto.
  eapply carts_storable_find; [|exact Hfind].
  now apply serve_all_carts_storable.
Qed.

(* --------------------------------------------------------------------- *)
(** *** Further properties of the handlers *)
(* --------------------------------------------------------------------- *)

(** A replacement confined to documents the filter rejects, before and
    after, is invisible to [find]. *)
Lemma find_update_first_other {D} (f g : D -> bool) (set : D -> D) (l : list D) :
  (forall d, g d = true -> f d = false) ->
  (forall d, f (set d) = f d) ->
  find f (update_first g set l) = find f l.
Proof.
  intros Hg Hset. induction l as [|a l IH]; simpl; [reflexivity|].
  destruct (g a) eqn:Hga; simpl.
  - rewrite Hset, (Hg a Hga). reflexivity.
  - destruct (f a); [reflexivity | exact IH].
Qed.

Lemma find_app {D} (f : D -> bool) (l l' : list D) :
  find f (l ++ l') = match find f l with Some d => Some d | None => find f l' end.
Proof.
  induction l as [|a l IH]; simpl; [reflexivity|].
  destruct (f a); [reflexivity | exact IH].
Qed.

Lemma cart_of_other u u' c :
  u' <> u -> cart_of u c = true -> cart_of u' c = false.
Proof.
  unfold cart_of. intros Hne Hu. apply String.eqb_eq in Hu.
  apply String.eqb_neq. congruence.
Qed.

Lemma after_checkout_cart p w c :
  find (cart_of (CheckoutRequest.user_id p)) (cart (db w)) = Some c ->
  find (cart_of (CheckoutRequest.user_id p)) (cart (db (after_checkout w p c)))
  = Some (CartDoc.set_items [] (utc_clock (S (S (clock_reads w)))) c).
Proof.
  intros Hfind. unfold after_checkout. cbn [db cart].
  rewrite find_update_first_same by (intros d; apply cart_of_set_items).
  rewrite Hfind. reflexivity.
Qed.

(** X1. The first add for a user (no cart yet) goes through the CartItem
    schema: a quantity below 1 raises the validation error, whatever the
    other fields, and leaves the world as it was; no cart is created. *)
Theorem add_to_cart_first_add_validates (u : string) (p : AddToCartRequest.t)
    (w : World) :
  find (cart_of u) (cart (db w)) = None ->
  AddToCartRequest.quantity p < 1 ->
  add_to_cart u p w = (Raise ValidationError, w).
Proof.
  intros Hnone Hq. run_handler. rewrite Hnone.
  unfold CartItem.validate, AddToCartRequest.model_dump. cbn [CartItem.quantity].
  replace (1 <=? AddToCartRequest.quantity p) with false; [reflexivity|].
  symmetry. apply Z.leb_gt. exact Hq.
Qed.

(** X2. On a cart that exists (and is the document its _id designates) the
    quantity is not checked: any item whose quantity BSON can encode, zero
    and negative ones included, is appended after the stored items; the
    response lists them all under the cart's id, and the user's stored cart
    then holds exactly that list. *)
Theorem add_to_cart_existing_cart_unchecked (u : string) (p : AddToCartRequest.t)
    (w : World) (c : CartDoc.t) :
  find (cart_of u) (cart (db w)) = Some c ->
  find (cart_id_is (CartDoc._id c)) (cart (db w)) = Some c ->
  forallb CartItem.encodable (CartDoc.items c) = true ->
  bson_int (AddToCartRequest.quantity p) = true ->
  exists w1 c1,
    add_to_cart u p w
    = (Ok (CartResponse.mk (ObjectId.str (CartDoc._id c))
             (CartDoc.items c ++ [AddToCartRequest.model_dump p])), w1)
    /\ find (cart_of u) (cart (db w1)) = Some c1
    /\ CartDoc._id c1 = CartDoc._id c
    /\ CartDoc.items c1 = CartDoc.items c ++ [AddToCartRequest.model_dump p].
Proof.
  intros Hu Hid Henc Hq.
  assert (Henc' : forallb CartItem.encodable
                    (CartDoc.items c ++ [AddToCartRequest.model_dump p]) = true).
  { rewrite forallb_app, Henc. cbn [forallb].
    unfold CartItem.encodable, AddToCartRequest.model_dump.
    cbn [CartItem.quantity]. now rewrite Hq. }
  eexists.
  exists (CartDoc.set_items (CartDoc.items c ++ [AddToCartRequest.model_dump p])
            (utc_clock (clock_reads w)) c).
  split; [apply add_to_cart_found; assumption|].
  cbn [db cart]. split; [apply find_update_first_hit; auto|].
  split; reflexivity.
Qed.

(** X3. add_to_cart for one user leaves the users, the products and the
    orders as they were and, when that user's cart is the document its _id
    designates, leaves the cart of every other user as it was. *)
Theorem add_to_cart_isolated (u u' : string) (p : AddToCartRequest.t) (w : World) :
  u' <> u ->
  (forall c, find (cart_of u) (cart (db w)) = Some c ->
             find (cart_id_is (CartDoc._id c)) (cart (db w)) = Some c) ->
  user (db (snd (add_to_cart u p w))) = user (db w)
  /\ product (db (snd (add_to_cart u p w))) = product (db w)
  /\ order (db (snd (add_to_cart u p w))) = order (db w)
  /\ find (cart_of u') (cart (db (snd (add_to_cart u p w))))
     = find (cart_of u') (cart (db w)).
Proof.
  intros Hne Hid. run_handler.
  destruct (find (cart_of u) (cart (db w))) as [c|] eqn:Hfind.
  - destruct (forallb _ _); cbn [snd db user product order cart]; auto.
    repeat split.
    destruct (update_first_split (cart_id_is (CartDoc._id c))
                (CartDoc.set_items
                   (CartDoc.items c ++ [AddToCartRequest.model_dump p])
                   (utc_clock (clock_reads w)))
                _ _ (Hid c eq_refl)) as (l1 & l2 & Hl & Hl' & _).
    rewrite Hl', Hl, !find_app. destruct (find (cart_of u') l1); [reflexivity|].
    apply find_some in Hfind. destruct Hfind as [_ Hc].
    cbn [find]. rewrite cart_of_set_items, (cart_of_other u u' c Hne Hc).
    reflexivity.
  - destruct (CartItem.validate _); [|auto].
    destruct (cart_encodable _); cbn [snd db user product order cart]; auto.
    repeat split. rewrite find_app.
    destruct (find (cart_of u') (cart (db w))); [reflexivity|].
    cbn [find]. unfold cart_of at 1. cbn [CartDoc.user_id Cart.user_id].
    replace (String.eqb u u') with false; [reflexivity|].
    symmetry. apply String.eqb_neq. congruence.
Qed.

(** X4. A checkout for one user, whether it succeeds or raises, leaves the
    cart of every other user as it was. *)
Theorem checkout_isolated (p : CheckoutRequest.t) (u' : string) (w : World) :
  u' <> CheckoutRequest.user_id p ->
  find (cart_of u') (cart (db (snd (checkout p w))))
  = find (cart_of u') (cart (db w)).
Proof.
  intros Hne. destruct (checkout p w) as [[r|e] w'] eqn:H; cbn [snd].
  - apply checkout_ok_inv in H. destruct H as (c & _ & _ & _ & _ & ->).
    unfold after_checkout. cbn [db cart].
    apply find_update_first_other.
    + intros d. apply cart_of_other. exact Hne.
    + intros d. apply cart_of_set_items.
  - apply checkout_raise_db in H. now rewrite H.
Qed.

(** X5. A cart cannot be checked out twice: right after a successful
    checkout, another checkout for the same user raises "Cart is empty" and
    writes nothing, so one cart content yields exactly one order. *)
Theorem checkout_twice_fails (p p' : CheckoutRequest.t) (w : World)
    (r : CheckoutResponse.t) (w' : World) :
  checkout p w = (Ok r, w') ->
  CheckoutRequest.user_id p' = CheckoutRequest.user_id p ->
  checkout p' w' = (Raise (HTTPException 400 "Cart is empty"), w')
  /\ exists o, order (db w') = order (db w) ++ [o].
Proof.
  intros H Hu. apply checkout_ok_inv in H.
  destruct H as (c & Hfind & _ & _ & _ & ->).
  split; [|unfold after_checkout; cbn [db order]; eauto].
  pose proof (after_checkout_cart p w c Hfind) as Hafter.
  unfold checkout, bind, find_one. cbn [docs cart_c]. rewrite Hu, Hafter.
  reflexivity.
Qed.

(** *** What every request keeps *)

(** A request leaves the users as they are or adds one with a new email. *)
Lemma serve_user_step r w :
  user (db (serve w r)) = user (db w)
  \/ exists new,
       user (db (serve w r)) = user (db w) ++ [new]
       /\ find (email_is (User.email (UserDoc.fields new))) (user (db w)) = None.
Proof.
  destruct r as [p|p| |p|u|u p|p]; cbn [serve].
  - rewrite signup_store_test. auto.
  - rewrite login_store_test. auto.
  - auto.
  - destruct (create_product_db p w) as [-> _]. auto.
  - destruct (get_cart_step u w) as [-> _]. auto.
  - destruct (add_to_cart_step u p w) as [-> _]. auto.
  - destruct (checkout_step p w) as [-> _]. auto.
Qed.

(** A request leaves the products as they are or adds one that validates. *)
Lemma serve_product_step r w :
  product (db (serve w r)) = product (db w)
  \/ exists new,
       product (db (serve w r)) = product (db w) ++ [new]
       /\ Product.validate (ProductDoc.fields new) = true.
Proof.
  destruct r as [p|p| |p|u|u p|p]; cbn [serve].
  - rewrite signup_store_test. auto.
  - rewrite login_store_test. auto.
  - auto.
  - run_handler. destruct (Product.validate p) eqn:Hv; [|auto].
    destruct (product_encodable _); cbn [snd db product]; [|auto].
    right. eexists. split; [reflexivity|]. exact Hv.
  - rewrite get_cart_store_test. auto.
  - run_handler. destruct (find _ _) as [c|].
    + destruct (forallb _ _); auto.
    + destruct (CartItem.validate _); [|auto].
      destruct (cart_encodable _); auto.
  - destruct (checkout p w) as [[r|e] w'] eqn:H; cbn [snd].
    + apply checkout_ok_inv in H. destruct H as (c & _ & _ & _ & _ & ->). auto.
    + apply checkout_raise_db in H. rewrite H. auto.
Qed.

(** A request leaves the orders as they are or adds a well-formed one. *)
Lemma serve_order_step r w :
  order (db (serve w r)) = order (db w)
  \/ exists new,
       order (db (serve w r)) = order (db w) ++ [new] /\ order_well_formed new.
Proof.
  destruct r as [p|p| |p|u|u p|p]; cbn [serve].
  - rewrite signup_store_test. auto.
  - rewrite login_store_test. auto.
  - auto.
  - run_handler. destruct (Product.validate p); [|auto].
    destruct (product_encodable _); auto.
  - rewrite get_cart_store_test. auto.
  - run_handler. destruct (find _ _) as [c|].
    + destruct (forallb _ _); auto.
    + destruct (CartItem.validate _); [|auto].
      destruct (cart_encodable _); auto.
  - destruct (checkout p w) as [[r|e] w'] eqn:H; cbn [snd].
    + apply checkout_ok_inv in H. destruct H as (c & _ & Hne & _ & _ & ->).
      right. exists (paid_order w p c). split; [reflexivity|].
      unfold order_well_formed, paid_order.
      cbn [OrderDoc.status OrderDoc.items OrderDoc.total].
      repeat split; auto.
      intros Hnil. apply map_eq_nil in Hnil. contradiction.
    + apply checkout_raise_db in H. rewrite H. auto.
Qed.


Lemma find_cart_none u l :
  find (cart_of u) l = None -> ~ In u (map CartDoc.user_id l).
Proof.
  induction l as [|a l IH]; simpl; [tauto|].
  unfold cart_of at 1. destruct (String.eqb _ u) eqn:He; [discriminate|].
  apply String.eqb_neq in He. intros H [Ha | Hin]; [congruence | now apply IH].
Qed.

Lemma update_first_map {D K} (key : D -> K) (g : D -> bool) (set : D -> D)
    (l : list D) :
  (forall d, key (set d) = key d) ->
  map key (update_first g set l) = map key l.
Proof.
  intros Hkey. induction l as [|a l IH]; simpl; [reflexivity|].
  destruct (g a); simpl; [now rewrite Hkey | now rewrite IH].
Qed.

Lemma NoDup_snoc {A} (l : list A) (a : A) :
  NoDup l -> ~ In a l -> NoDup (l ++ [a]).
Proof.
  intros Hl Ha. apply NoDup_app; [exact Hl | repeat constructor; auto |].
  intros x Hx [<- | []]. contradiction.
Qed.

(** X6. Nothing stored is ever removed or re-keyed: whatever requests are
    served, the users, the products and the orders of before are still there,
    unchanged and in place, with the new ones after them, and every cart of
    before is still at its place with its _id and its owner. *)
Theorem serve_all_append_only (rs : list Request) (w : World) :
  (exists l, user (db (serve_all rs w)) = user (db w) ++ l)
  /\ (exists l, product (db (serve_all rs w)) = product (db w) ++ l)
  /\ (exists l, order (db (serve_all rs w)) = order (db w) ++ l)
  /\ (exists l, cart_keys (serve_all rs w) = cart_keys w ++ l).
Proof.
  revert w. induction rs as [|r rs IH]; intros w.
  - cbn [serve_all fold_left]. repeat split; exists []; now rewrite app_nil_r.
  - cbn [serve_all fold_left].
    change (fold_left serve rs ?w0) with (serve_all rs w0).
    destruct (IH (serve w r)) as ((lu & Hu) & (lp & Hp) & (lo & Ho) & (lc & Hc)).
    rewrite Hu, Hp, Ho, Hc. repeat split.
    + destruct (serve_user_step r w) as [-> | (new & -> & _)];
        [eauto | rewrite <- app_assoc; eauto].
    + destruct (serve_product_step r w) as [-> | (new & -> & _)];
        [eauto | rewrite <- app_assoc; eauto].
    + destruct (serve_order_step r w) as [-> | (new & -> & _)];
        [eauto | rewrite <- app_assoc; eauto].
    + unfold cart_keys.
      destruct (serve_carts r w) as [|new _ _|g its t _].
      * eauto.
      * rewrite map_app, <- app_assoc. eauto.
      * rewrite update_first_map by reflexivity. eauto.
Qed.


(** X8. Look-up-before-create keeps one cart per user: if no two stored
    carts have the same owner, then after any requests served one after the
    other no two stored carts have the same owner. *)
Theorem serve_all_one_cart_per_user (rs : list Request) (w : World) :
  NoDup (cart_owners w) -> NoDup (cart_owners (serve_all rs w)).
Proof.
  revert w. induction rs as [|r rs IH]; intros w H; [exact H|].
  cbn [serve_all fold_left]. apply IH. unfold cart_owners in *.
  destruct (serve_carts r w) as [|new Hnew _|g its t _].
  - exact H.
  - rewrite map_app. cbn [map]. apply NoDup_snoc; [exact H|].
    now apply find_cart_none.
  - now rewrite update_first_map by reflexivity.
Qed.


(** X10. Every order ever written is paid, has at least one line, and has
    as total the rounded sum of its lines: if the stored orders are so, they
    all are after any requests. *)
Theorem serve_all_orders_well_formed (rs : list Request) (w : World) :
  Forall order_well_formed (order (db w)) ->
  Forall order_well_formed (order (db (serve_all rs w))).
Proof.
  revert w. induction rs as [|r rs IH]; intros w H; [exact H|].
  cbn [serve_all fold_left]. apply IH.
  destruct (serve_order_step r w) as [-> | (new & -> & Hnew)]; [exact H|].
  apply Forall_app. split; [exact H | constructor; [exact Hnew | constructor]].
Qed.

(** X11. Only products that pass the schema get stored: if every stored
    product has a price of at least 0, so has every stored product after any
    requests. *)
Theorem serve_all_products_valid (rs : list Request) (w : World) :
  products_valid w -> products_valid (serve_all rs w).
Proof.
  revert w. induction rs as [|r rs IH]; intros w H; [exact H|].
  cbn [serve_all fold_left]. apply IH. unfold products_valid in *.
  destruct (serve_product_step r w) as [-> | (new & -> & Hnew)]; [exact H|].
  apply Forall_app. split; [exact H | constructor; [exact Hnew | constructor]].
Qed.

(** *** What a created product becomes *)

Lemma serve_all_products_prefix rs w :
  exists l, product (db (serve_all rs w)) = product (db w) ++ l.
Proof.
  revert w. induction rs as [|r rs IH]; intros w.
  - exists []. cbn [serve_all fold_left]. now rewrite app_nil_r.
  - cbn [serve_all fold_left].
    change (fold_left serve rs ?w0) with (serve_all rs w0).
    destruct (IH (serve w r)) as (l & ->).
    destruct (serve_product_step r w) as [-> | (new & -> & _)];
      [eauto | rewrite <- app_assoc; eauto].
Qed.

(** X14. A product that validates, created under an identifier that is a
    canonical ObjectId string new to the products, is what its returned id
    resolves to from then on, whatever requests follow: a cart line carrying
    that id is snapshotted by checkout with the title and the price given at
    creation. *)
Theorem created_product_resolves (p : Product.t) (w : World) (rs : list Request) :
  Product.validate p = true ->
  forallb (fun v => bson_int (ProductVariant.stock v)) (Product.variants p) = true ->
  ObjectId.is_valid (generated_oid (oids_made w)) = true ->
  ObjectId.of_str (generated_oid (oids_made w)) = generated_oid (oids_made w) ->
  find (product_id_is (generated_oid (oids_made w))) (product (db w)) = None ->
  exists pid w1,
    create_product p w = (Ok pid, w1)
    /\ resolve (serve_all rs w1) pid
       = Some (ProductDoc.mk (generated_oid (oids_made w)) p)
    /\ forall q sz col,
         snapshot (serve_all rs w1) (CartItem.mk pid q sz col)
         = OrderItem.mk pid (Product.title p) (Product.price p) q sz col.
Proof.
  intros Hv Henc Hvalid Hcanon Hfresh.
  exists (ObjectId.str (generated_oid (oids_made w))).
  eexists. split.
  { run_handler. rewrite Hv. unfold product_encodable.
    cbn [ProductDoc.fields]. rewrite Henc. reflexivity. }
  match goal with |- context [serve_all rs ?w1] => set (W := w1) end.
  assert (Hres : resolve (serve_all rs W) (ObjectId.str (generated_oid (oids_made w)))
                 = Some (ProductDoc.mk (generated_oid (oids_made w)) p)).
  { unfold resolve, ObjectId.str. rewrite Hvalid, Hcanon.
    destruct (serve_all_products_prefix rs W) as (l & ->).
    apply find_app_some. unfold W. cbn [db product].
    rewrite find_app_none by exact Hfresh. cbn [find].
    unfold product_id_is at 1, ObjectId.eqb. cbn [ProductDoc._id].
    now rewrite String.eqb_refl. }
  split; [exact Hres|].
  intros q sz col. unfold snapshot. cbn [CartItem.product_id].
  rewrite Hres. reflexivity.
Qed.

(** X15. GET /products returns at most 100 products, the first 100 in store
    order: a product created when fewer than 100 are stored is listed last,
    and one created when 100 or more are stored is stored but not listed.
    (The stored products are taken to pass the schema, as they do once
    created through POST /products, so that building each listed [Product]
    goes through.) *)
Theorem list_products_limit (p : Product.t) (w : World) :
  products_valid w ->
  Product.validate p = true ->
  forallb (fun v => bson_int (ProductVariant.stock v)) (Product.variants p) = true ->
  exists pid w1 l,
    create_product p w = (Ok pid, w1)
    /\ product (db w1) = product (db w) ++ [ProductDoc.mk (generated_oid (oids_made w)) p]
    /\ list_products w1 = (Ok l, w1)
    /\ (List.length l <= 100)%nat
    /\ ((List.length (product (db w)) < 100)%nat ->
        l = map ProductDoc.fields (product (db w)) ++ [p])
    /\ ((100 <= List.length (product (db w)))%nat ->
        l = map ProductDoc.fields (firstn 100 (product (db w)))).
Proof.
  intros _ Hv Henc.
  exists (ObjectId.str (generated_oid (oids_made w))).
  eexists. eexists. split.
  { run_handler. rewrite Hv. unfold product_encodable.
    cbn [ProductDoc.fields]. rewrite Henc. reflexivity. }
  split; [reflexivity|].
  split; [run_handler; reflexivity|].
  split; [rewrite length_map; apply firstn_le_length|].
  split.
  - intros Hlt. rewrite firstn_all2.
    + rewrite map_app. reflexivity.
    + rewrite length_app. cbn [List.length]. lia.
  - intros Hge. rewrite firstn_app.
    replace (100 - List.length (product (db w)))%nat with 0%nat by lia.
    cbn [firstn]. now rewrite app_nil_r.
Qed.

(** *** What add_to_cart looks at *)

(** X16. add_to_cart never looks at the catalog: with any other collection
    of products in the store, the same request gets the same answer and
    leaves the same carts, so a line may refer to a product that does not
    exist. *)
Theorem add_to_cart_ignores_catalog (u : string) (p : AddToCartRequest.t)
    (w : World) (products : list ProductDoc.t) :
  fst (add_to_cart u p
         (mkWorld (mkDatabase (user (db w)) products (cart (db w)) (order (db w)))
            (clock_reads w) (oids_made w) (salts_drawn w)))
  = fst (add_to_cart u p w)
  /\ cart (db (snd (add_to_cart u p
                      (mkWorld (mkDatabase (user (db w)) products (cart (db w))
                                  (order (db w)))
                         (clock_reads w) (oids_made w) (salts_drawn w)))))
     = cart (db (snd (add_to_cart u p w))).
Proof.
  run_handler. destruct (find _ _) as [c|].
  - destruct (forallb _ _); auto.
  - destruct (CartItem.validate _); [|auto].
    destruct (cart_encodable _); auto.
Qed.

End Properties.

(* ===================================================================== *)
(** ** Runs on concrete worlds: witnesses and counterexamples *)
(* ===================================================================== *)

#[local] Existing Instance Demo.runtime.

(** [round] rounds the exact binary value and breaks ties to even: 0.125 goes
    to the float nearest 12/100, 0.375 to the one nearest 38/100. *)
Example round2_ties_to_even :
  Py.round2 0.125%float = Py.div_nearest false 12 100
  /\ Py.round2 0.375%float = Py.div_nearest false 38 100.
Proof. split; vm_compute; reflexivity. Qed.

(** The least integer with no float, and the greatest with one. *)
Example float_of_int_limit :
  is_infinity (Py.nearest_float Py.float_limit) = true
  /\ is_infinity (Py.nearest_float (Py.float_limit - 1)) = false
  /\ Py.float_of_int Py.float_limit = None.
Proof. repeat split; vm_compute; reflexivity. Qed.

(** The end-to-end run of the specification on the handlers: the signup
    raises at the test of [db]; the product at 15 is created, three of it go
    into the cart, the checkout is at 45.0 and "paid" and empties the stored
    cart; the get_cart that follows raises like the signup. *)
Example end_to_end :
  let tee15 := Product.mk "Tee" None 15%float "shirts" [] [] true in
  let w1 := serve Demo.world0 (PostSignup Demo.alice) in
  let w2 := serve w1 (PostProducts tee15) in
  let w3 := serve w2 (PostCartAdd "alice"
                        (AddToCartRequest.mk "65f1a2b30000000000000000" 3 None None)) in
  let w4 := serve w3 (PostCheckout (CheckoutRequest.mk "alice" None)) in
  fst (signup Demo.alice Demo.world0) = Raise NotImplementedError
  /\ fst (create_product tee15 w1) = Ok "65f1a2b30000000000000000"
  /\ fst (checkout (CheckoutRequest.mk "alice" None) w3)
     = Ok (CheckoutResponse.mk "65f1a2b30000000000000002" 45%float "paid")
  /\ option_map CartDoc.items (find (cart_of "alice") (cart (db w4))) = Some []
  /\ fst (get_cart "alice" w4) = Raise NotImplementedError.
Proof. repeat split; vm_compute; reflexivity. Qed.

Lemma checkout_empty_cart_fails_witness :
  (find (cart_of Scenario.alice_id) (cart (db Scenario.shop)) = None
   \/ exists c, find (cart_of Scenario.alice_id) (cart (db Scenario.shop)) = Some c
                /\ CartDoc.items c = [])
  /\ checkout Scenario.alice_checkout Scenario.shop
     = (Raise (HTTPException 400 "Cart is empty"), Scenario.shop).
Proof.
  assert (H : find (cart_of Scenario.alice_id) (cart (db Scenario.shop)) = None
              \/ exists c,
                   find (cart_of Scenario.alice_id) (cart (db Scenario.shop)) = Some c
                   /\ CartDoc.items c = [])
    by (left; reflexivity).
  split; [exact H|].
  exact (checkout_empty_cart_fails Scenario.alice_checkout Scenario.shop H).
Defined.

Lemma checkout_order_snapshot_witness :
  checkout Scenario.alice_checkout Scenario.shopping
  = (Ok (CheckoutResponse.mk "65f1a2b30000000000000003" 20%float "paid"),
     serve Scenario.shopping (PostCheckout Scenario.alice_checkout))
  /\ exists c o,
       find (cart_of Scenario.alice_id) (cart (db Scenario.shopping)) = Some c
       /\ order (db (serve Scenario.shopping (PostCheckout Scenario.alice_checkout)))
          = order (db Scenario.shopping) ++ [o]
       /\ OrderDoc.status o = "paid"
       /\ OrderDoc.user_id o = Scenario.alice_id
       /\ Forall2
            (fun it oi =>
               OrderItem.product_id oi = CartItem.product_id it
               /\ OrderItem.quantity oi = CartItem.quantity it
               /\ OrderItem.size oi = CartItem.size it
               /\ OrderItem.color oi = CartItem.color it
               /\ match resolve Scenario.shopping (CartItem.product_id it) with
                  | Some prod =>
                      OrderItem.title oi = Product.title (ProductDoc.fields prod)
                      /\ OrderItem.unit_price oi
                         = Product.price (ProductDoc.fields prod)
                  | None =>
                      OrderItem.title oi = "Item"
                      /\ OrderItem.unit_price oi = 0%float
                  end)
            (CartDoc.items c) (OrderDoc.items o)
       /\ CheckoutResponse.mk "65f1a2b30000000000000003" 20%float "paid"
          = CheckoutResponse.mk (ObjectId.str (OrderDoc._id o)) (OrderDoc.total o) "paid".
Proof.
  assert (H : checkout Scenario.alice_checkout Scenario.shopping
              = (Ok (CheckoutResponse.mk "65f1a2b30000000000000003" 20%float "paid"),
                 serve Scenario.shopping (PostCheckout Scenario.alice_checkout)))
    by (vm_compute; reflexivity).
  split; [exact H|].
  exact (checkout_order_snapshot _ _ _ _ H).
Defined.

Lemma checkout_total_witness :
  (exists r w' o,
     checkout Scenario.alice_checkout Scenario.shopping = (Ok r, w')
     /\ order (db w') = order (db Scenario.shopping) ++ [o]
     /\ OrderDoc.items o = [OrderItem.mk Scenario.tee_id "Tee" 10%float 2 None None]
     /\ OrderDoc.total o = 20%float
     /\ CheckoutResponse.total r = 20%float)
  /\ exists n,
       nearest_hundredths 4503599627370496 (-55) n
       /\ Py.round2 0.125%float
          = match n with
            | Z.pos k => Py.div_nearest false k 100
            | _ => SF2Prim (S754_zero false)
            end.
Proof.
  split.
  - exact (proj2 (proj2 (proj2
             (checkout_total Scenario.alice_checkout Scenario.shopping)))
             (Scenario.alice_cart [AddToCartRequest.model_dump Scenario.two_tees] None)
             Scenario.tee_id None None (ProductDoc.mk Scenario.tee_id Demo.tee)
             eq_refl eq_refl eq_refl eq_refl).
  - exact (proj1 (proj2
             (checkout_total Scenario.alice_checkout Scenario.shopping))
             0.125%float false 4503599627370496%positive (-55) eq_refl).
Defined.

Lemma checkout_tolerates_unresolved_items_witness :
  find (cart_of Scenario.alice_id) (cart (db Scenario.shopping_unknown))
  = Some (Scenario.alice_cart [AddToCartRequest.model_dump Scenario.unknown_item] None)
  /\ ObjectId.is_valid "not-a-valid-id" = false
  /\ exists r w' o,
       checkout Scenario.alice_checkout Scenario.shopping_unknown = (Ok r, w')
       /\ order (db w') = order (db Scenario.shopping_unknown) ++ [o]
       /\ OrderDoc.items o = [OrderItem.mk "not-a-valid-id" "Item" 0%float 1 None None].
Proof.
  split; [reflexivity|]. split; [reflexivity|].
  destruct (checkout_tolerates_unresolved_items Scenario.alice_checkout
              Scenario.shopping_unknown
              (Scenario.alice_cart
                 [AddToCartRequest.model_dump Scenario.unknown_item] None)
              eq_refl
              (fun H : [AddToCartRequest.model_dump Scenario.unknown_item] = [] =>
                 eq_ind [AddToCartRequest.model_dump Scenario.unknown_item]
                   (fun l => match l with [] => False | _ :: _ => True end)
                   I [] H)
              eq_refl)
    as (r & w' & o & Hrun & Horder & Hlen & Hnth).
  exists r, w', o. split; [exact Hrun|]. split; [exact Horder|].
  pose proof (Hnth 0%nat _ eq_refl (or_introl eq_refl)) as H0.
  cbn [Scenario.alice_cart CartDoc.items List.length] in Hlen.
  destruct (OrderDoc.items o) as [|a [|b l]]; try discriminate.
  cbn in H0. injection H0 as ->. reflexivity.
Defined.

Lemma checkout_clears_cart_witness :
  checkout Scenario.alice_checkout Scenario.shopping
  = (Ok (CheckoutResponse.mk "65f1a2b30000000000000003" 20%float "paid"),
     serve Scenario.shopping (PostCheckout Scenario.alice_checkout))
  /\ exists c,
       find (cart_of Scenario.alice_id) (cart (db Scenario.shopping)) = Some c
       /\ CartDoc.items c <> []
       /\ find (cart_of Scenario.alice_id)
            (cart (db (serve Scenario.shopping (PostCheckout Scenario.alice_checkout))))
          = Some (CartDoc.mk (CartDoc._id c) (CartDoc.user_id c) []
                    (Some (bson_datetime
                             (utc_clock (2 + clock_reads Scenario.shopping)))))
       /\ get_cart Scenario.alice_id
            (serve Scenario.shopping (PostCheckout Scenario.alice_checkout))
          = (Raise NotImplementedError,
             serve Scenario.shopping (PostCheckout Scenario.alice_checkout)).
Proof.
  assert (H : checkout Scenario.alice_checkout Scenario.shopping
              = (Ok (CheckoutResponse.mk "65f1a2b30000000000000003" 20%float "paid"),
                 serve Scenario.shopping (PostCheckout Scenario.alice_checkout)))
    by (vm_compute; reflexivity).
  split; [exact H|].
  exact (checkout_clears_cart _ _ _ _ H).
Defined.

(** The store keeps the update time of the cleared cart in milliseconds:
    the clock read ...123456 microseconds, the document holds ...123000. *)
Example cleared_cart_update_time :
  utc_clock (2 + clock_reads Scenario.shopping) = 1700000003123456
  /\ option_map CartDoc.updated_at
       (find (cart_of Scenario.alice_id)
          (cart (db (serve Scenario.shopping (PostCheckout Scenario.alice_checkout)))))
     = Some (Some 1700000003123000).
Proof. split; vm_compute; reflexivity. Qed.

Lemma add_to_cart_appends_in_order_witness :
  Forall storable_quantity [Scenario.two_tees; Scenario.two_tees]
  /\ find (cart_of Scenario.alice_id) (cart (db Scenario.shop)) = None
  /\ exists cid,
       (forall l1 p l2,
          [Scenario.two_tees; Scenario.two_tees] = l1 ++ p :: l2 ->
          add_to_cart Scenario.alice_id p
            (serve_all (map (PostCartAdd Scenario.alice_id) l1) Scenario.shop)
          = (Ok (CartResponse.mk cid (map AddToCartRequest.model_dump (l1 ++ [p]))),
             serve_all (map (PostCartAdd Scenario.alice_id) (l1 ++ [p])) Scenario.shop))
       /\ ([Scenario.two_tees; Scenario.two_tees] <> [] ->
           exists c,
             find (cart_of Scenario.alice_id)
               (cart (db (serve_all
                            (map (PostCartAdd Scenario.alice_id)
                               [Scenario.two_tees; Scenario.two_tees])
                            Scenario.shop)))
             = Some c
             /\ ObjectId.str (CartDoc._id c) = cid
             /\ CartDoc.items c
                = map AddToCartRequest.model_dump
                    [Scenario.two_tees; Scenario.two_tees]).
Proof.
  assert (Hq : storable_quantity Scenario.two_tees)
    by (unfold storable_quantity; cbn; lia).
  assert (Hl : Forall storable_quantity [Scenario.two_tees; Scenario.two_tees])
    by (repeat (constructor; [exact Hq|]); constructor).
  split; [exact Hl|]. split; [reflexivity|].
  exact (add_to_cart_appends_in_order Scenario.alice_id
           [Scenario.two_tees; Scenario.two_tees] Scenario.shop Hl
           (or_introl (conj eq_refl eq_refl))).
Defined.

(** The claim C5 as stated fails on a first add with quantity 0: the user has
    no cart, the request is a well-formed [AddToCartRequest], and the call
    raises pydantic's validation error (the [CartItem] schema wants a quantity
    of at least 1), so that no cart holding the item exists afterwards. *)
Lemma add_to_cart_rejects_quantity_zero :
  find (cart_of Scenario.alice_id) (cart (db Scenario.shop)) = None
  /\ add_to_cart Scenario.alice_id Scenario.no_tees Scenario.shop
     = (Raise ValidationError, Scenario.shop)
  /\ ~ exists c,
         find (cart_of Scenario.alice_id)
           (cart (db (serve_all [PostCartAdd Scenario.alice_id Scenario.no_tees]
                        Scenario.shop)))
         = Some c
         /\ CartDoc.items c = [AddToCartRequest.model_dump Scenario.no_tees].
Proof.
  split; [reflexivity|]. split; [reflexivity|].
  intros (c & Hfind & _). vm_compute in Hfind. discriminate Hfind.
Qed.

(** The same request is appended, unchecked, when the user already has a
    cart: the schema's bound on the quantity guards the first add only. *)
Example add_to_cart_existing_cart_takes_quantity_zero :
  fst (add_to_cart Scenario.alice_id Scenario.no_tees Scenario.shopping)
  = Ok (CartResponse.mk Scenario.cart_id
          [AddToCartRequest.model_dump Scenario.two_tees;
           AddToCartRequest.model_dump Scenario.no_tees]).
Proof. vm_compute. reflexivity. Qed.

(** *** Runs of the further properties *)

Lemma add_to_cart_first_add_validates_witness :
  find (cart_of Scenario.alice_id) (cart (db Scenario.shop)) = None
  /\ add_to_cart Scenario.alice_id Scenario.no_tees Scenario.shop
     = (Raise ValidationError, Scenario.shop).
Proof.
  split; [reflexivity|].
  apply (add_to_cart_first_add_validates Scenario.alice_id Scenario.no_tees
           Scenario.shop eq_refl).
  reflexivity.
Defined.

Lemma add_to_cart_existing_cart_unchecked_witness :
  AddToCartRequest.quantity Scenario.no_tees = 0
  /\ exists w1 c1,
       add_to_cart Scenario.alice_id Scenario.no_tees Scenario.shopping
       = (Ok (CartResponse.mk Scenario.cart_id
                [AddToCartRequest.model_dump Scenario.two_tees;
                 AddToCartRequest.model_dump Scenario.no_tees]), w1)
       /\ find (cart_of Scenario.alice_id) (cart (db w1)) = Some c1
       /\ CartDoc._id c1 = Scenario.cart_id
       /\ CartDoc.items c1
          = [AddToCartRequest.model_dump Scenario.two_tees;
             AddToCartRequest.model_dump Scenario.no_tees].
Proof.
  split; [reflexivity|].
  exact (add_to_cart_existing_cart_unchecked Scenario.alice_id Scenario.no_tees
           Scenario.shopping
           (Scenario.alice_cart [AddToCartRequest.model_dump Scenario.two_tees] None)
           eq_refl eq_refl eq_refl eq_refl).
Defined.

Lemma add_to_cart_isolated_witness :
  user (db (snd (add_to_cart Scenario.alice_id Scenario.two_tees Scenario.two_carts)))
  = user (db Scenario.two_carts)
  /\ product (db (snd (add_to_cart Scenario.alice_id Scenario.two_tees
                         Scenario.two_carts)))
     = product (db Scenario.two_carts)
  /\ order (db (snd (add_to_cart Scenario.alice_id Scenario.two_tees
                       Scenario.two_carts)))
     = order (db Scenario.two_carts)
  /\ find (cart_of "bob")
       (cart (db (snd (add_to_cart Scenario.alice_id Scenario.two_tees
                         Scenario.two_carts))))
     = find (cart_of "bob") (cart (db Scenario.two_carts)).
Proof.
  apply (add_to_cart_isolated Scenario.alice_id "bob" Scenario.two_tees
           Scenario.two_carts).
  - discriminate.
  - intros c H. vm_compute in H. injection H as <-. reflexivity.
Defined.

Lemma checkout_isolated_witness :
  find (cart_of "bob")
    (cart (db (snd (checkout Scenario.alice_checkout Scenario.two_carts))))
  = find (cart_of "bob") (cart (db Scenario.two_carts)).
Proof.
  apply (checkout_isolated Scenario.alice_checkout "bob").
  discriminate.
Defined.

Lemma checkout_twice_fails_witness :
  checkout Scenario.alice_checkout Scenario.shopping
  = (Ok (CheckoutResponse.mk "65f1a2b30000000000000003" 20%float "paid"),
     serve Scenario.shopping (PostCheckout Scenario.alice_checkout))
  /\ checkout (CheckoutRequest.mk Scenario.alice_id None)
       (serve Scenario.shopping (PostCheckout Scenario.alice_checkout))
     = (Raise (HTTPException 400 "Cart is empty"),
        serve Scenario.shopping (PostCheckout Scenario.alice_checkout))
  /\ exists o,
       order (db (serve Scenario.shopping (PostCheckout Scenario.alice_checkout)))
       = order (db Scenario.shopping) ++ [o].
Proof.
  assert (H : checkout Scenario.alice_checkout Scenario.shopping
              = (Ok (CheckoutResponse.mk "65f1a2b30000000000000003" 20%float "paid"),
                 serve Scenario.shopping (PostCheckout Scenario.alice_checkout)))
    by (vm_compute; reflexivity).
  split; [exact H|].
  exact (checkout_twice_fails Scenario.alice_checkout
           (CheckoutRequest.mk Scenario.alice_id None) _ _ _ H eq_refl).
Defined.


Lemma serve_all_one_cart_per_user_witness :
  NoDup (cart_owners Scenario.shopping)
  /\ NoDup (cart_owners
              (serve_all [GetCart Scenario.alice_id; GetCart "bob";
                          PostCartAdd "bob" Scenario.two_tees;
                          PostCheckout Scenario.alice_checkout;
                          PostCartAdd Scenario.alice_id Scenario.two_tees]
                 Scenario.shopping)).
Proof.
  assert (H : NoDup (cart_owners Scenario.shopping))
    by (repeat constructor; intros []).
  split; [exact H|].
  exact (serve_all_one_cart_per_user _ Scenario.shopping H).
Defined.


Lemma serve_all_orders_well_formed_witness :
  Forall order_well_formed (order (db Scenario.shopping))
  /\ Forall order_well_formed
       (order (db (serve_all [PostCheckout Scenario.alice_checkout;
                              PostCartAdd Scenario.alice_id Scenario.unknown_item;
                              PostCheckout Scenario.alice_checkout]
                     Scenario.shopping))).
Proof.
  assert (H : Forall order_well_formed (order (db Scenario.shopping)))
    by constructor.
  split; [exact H|].
  exact (serve_all_orders_well_formed _ Scenario.shopping H).
Defined.

Lemma serve_all_products_valid_witness :
  products_valid Demo.world0
  /\ products_valid
       (serve_all [PostProducts Demo.tee;
                   PostProducts (Product.mk "Free" None (-1)%float "x" [] [] true)]
          Demo.world0).
Proof.
  assert (H : products_valid Demo.world0) by constructor.
  split; [exact H|].
  exact (serve_all_products_valid _ Demo.world0 H).
Defined.

Lemma created_product_resolves_witness :
  exists pid w1,
    create_product Demo.tee Scenario.shop = (Ok pid, w1)
    /\ resolve (serve_all [PostCartAdd Scenario.alice_id Scenario.two_tees] w1) pid
       = Some (ProductDoc.mk "65f1a2b30000000000000002" Demo.tee)
    /\ forall q sz col,
         snapshot (serve_all [PostCartAdd Scenario.alice_id Scenario.two_tees] w1)
           (CartItem.mk pid q sz col)
         = OrderItem.mk pid "Tee" 10%float q sz col.
Proof.
  exact (created_product_resolves Demo.tee Scenario.shop
           [PostCartAdd Scenario.alice_id Scenario.two_tees]
           eq_refl eq_refl eq_refl eq_refl eq_refl).
Defined.

Lemma list_products_limit_witness :
  exists pid w1 l,
    create_product Demo.tee Demo.world0 = (Ok pid, w1)
    /\ product (db w1) = [ProductDoc.mk "65f1a2b30000000000000000" Demo.tee]
    /\ list_products w1 = (Ok l, w1)
    /\ (List.length l <= 100)%nat
    /\ ((0 < 100)%nat -> l = [Demo.tee])
    /\ ((100 <= 0)%nat -> l = []).
Proof.
  exact (list_products_limit Demo.tee Demo.world0
           (Forall_nil _) eq_refl eq_refl).
Defined.
